(** * InNoHassle RoomsBot: dialog handlers of the task view, the roomless
      welcome screen and the /start message.

    Shallow embedding of
      - src/bot/dialogs/task_view.py
      - src/bot/dialogs/roomless.py
      - src/bot/start_message.py

    Python values are a small sum type, dictionaries are stdpp [gmap]s with
    string keys, the asynchronous handlers are programs of a state and
    exception monad whose state holds the remote server, the dialog data of
    the conversation and the log of every call made to the API client and to
    the dialog manager.  The API client is a parameter; the calls to the
    dialog manager ([start], [show], [done]) are logged and return. *)

From Stdlib Require Import ZArith Ascii String List Bool Lia.
From stdpp Require Import base gmap strings list fin_maps.
Import ListNotations.

Local Open Scope string_scope.
Local Open Scope list_scope.
Local Open Scope Z_scope.

(** ** Exceptions and outcomes *)

Inductive exn : Type :=
| RuntimeError
| KeyError (key : string)
| ValueError
| TypeError
| AttributeError (attr : string).

Inductive outcome (A : Type) : Type :=
| Ok (a : A)
| Raise (e : exn).
Arguments Ok {A} a.
Arguments Raise {A} e.

(** ** Characters and text

    The text of a dialog result, of a date and of a format is modelled by
    [string] restricted to ASCII text; on that range the decimal characters
    of the regex class [\d] are exactly '0'..'9'.  Where the characters of
    any text decide ([period_filter]), text is a list of code points, see
    the Unicode text below. *)

Definition code (c : ascii) : Z := Z.of_N (N_of_ascii c).

Definition in_range (lo hi : Z) (c : ascii) : bool :=
  (lo <=? code c) && (code c <=? hi).

Definition is_digit (c : ascii) : bool := in_range 48 57 c.

Definition digit_val (c : ascii) : Z := code c - 48.

(** [str.isspace] on one ASCII character: TAB..CR, FS..US and the space. *)
Definition is_space (c : ascii) : bool :=
  in_range 9 13 c || in_range 28 32 c.

Definition chars (s : string) : list ascii := list_ascii_of_string s.

(** The white space of the C library, which [int] skips around an ASCII
    numeral: TAB..CR and the space. *)
Definition is_c_space (c : ascii) : bool :=
  in_range 9 13 c || in_range 32 32 c.

(** Value of a run of digits, most significant first, as [int] accumulates. *)
Definition digits_value (cs : list ascii) : Z :=
  fold_left (fun acc c => 10 * acc + digit_val c) cs 0.

Fixpoint lstrip (cs : list ascii) : list ascii :=
  match cs with
  | c :: cs' => if is_c_space c then lstrip cs' else cs
  | [] => []
  end.

Definition strip (cs : list ascii) : list ascii :=
  rev (lstrip (rev (lstrip cs))).

(** [int(text)] for base 10 on an ASCII numeral, as [strptime] calls it on
    a group of its pattern (four characters at most): surrounding
    whitespace is stripped, one sign is allowed, then at least one digit.
    (Digit grouping with underscores and the interpreter's limit on the
    number of digits, which is checked only above 640 digits, are left to
    [int_str] below.) *)
Definition py_int_chars (cs : list ascii) : outcome Z :=
  let body := strip cs in
  let '(neg, ds) :=
    match body with
    | "-"%char :: r => (true, r)
    | "+"%char :: r => (false, r)
    | _ => (false, body)
    end in
  match ds with
  | [] => Raise ValueError
  | _ => if forallb is_digit ds
         then Ok (if neg then - digits_value ds else digits_value ds)
         else Raise ValueError
  end.

Definition py_int (s : string) : outcome Z := py_int_chars (chars s).

(** ** Unicode text

    Where single characters decide, Python text is the list of its code
    points.  The Unicode character database of the interpreter is a
    parameter: its decimal digits with their values ([unicodedata.decimal])
    and its white space, with two facts that hold of every version of it:
    up to U+00FF the decimal digits are '0'..'9', and no decimal digit is
    white space. *)

Definition ustr : Type := list N.

Record UnicodeData : Type := mk_unicode {
  udecimal : N -> option Z;
  uspace : N -> bool;
  udecimal_latin1 :
    forall c, (c < 256)%N ->
      udecimal c = if ((48 <=? c) && (c <=? 57))%N then Some (Z.of_N c - 48) else None;
  udecimal_not_space : forall c d, udecimal c = Some d -> uspace c = false
}.

(** The code points of an ASCII text. *)
Definition codes (s : string) : ustr := map N_of_ascii (chars s).

(** [str.isdecimal]: at least one character and every character a decimal
    digit. *)
Definition isdecimal (U : UnicodeData) (s : ustr) : bool :=
  match s with
  | [] => false
  | _ => forallb (fun c => match udecimal U c with Some _ => true | None => false end) s
  end.

(** How [int] reads one character: below U+007F by the ASCII rules of the C
    library, from there on by the database (a space, a decimal digit, or a
    character that ends the numeral). *)
Inductive int_char : Type :=
| ISpace
| IDigit (d : Z)
| ISign (negative : bool)
| IUnderscore
| IOther.

Definition read_char (U : UnicodeData) (c : N) : int_char :=
  if (c <? 127)%N then
    if ((9 <=? c) && (c <=? 13) || (c =? 32))%N then ISpace
    else if ((48 <=? c) && (c <=? 57))%N then IDigit (Z.of_N c - 48)
    else if (c =? 43)%N then ISign false
    else if (c =? 45)%N then ISign true
    else if (c =? 95)%N then IUnderscore
    else IOther
  else if uspace U c then ISpace
  else match udecimal U c with
       | Some d => IDigit d
       | None => IOther
       end.

Fixpoint skip_spaces (ts : list int_char) : list int_char :=
  match ts with
  | ISpace :: ts' => skip_spaces ts'
  | _ => ts
  end.

(** Digits, single underscores between them allowed: no underscore first,
    last or doubled, and at least one digit. *)
Fixpoint read_digits (prev_digit : bool) (ts : list int_char) (acc : list Z)
  : option (list Z * list int_char) :=
  match ts with
  | IDigit d :: ts' => read_digits true ts' (d :: acc)
  | IUnderscore :: ts' => if prev_digit then read_digits false ts' acc else None
  | _ => if prev_digit then Some (rev acc, ts) else None
  end.

(** [sys.int_info.default_max_str_digits] *)
Definition default_max_str_digits : Z := 4300.

(** The limit [sys.get_int_max_str_digits()] on the digits of a numeral;
    0 switches it off, and up to 640 digits it is not looked at. *)
Definition over_limit (limit : Z) (digits : nat) : bool :=
  (640 <? Z.of_nat digits) && (0 <? limit) && (limit <? Z.of_nat digits).

(** [int(text)] for base 10, with the interpreter's digit limit [limit]. *)
Definition int_str (U : UnicodeData) (limit : Z) (s : ustr) : outcome Z :=
  let ts := skip_spaces (map (read_char U) s) in
  let '(negative, ts1) :=
    match ts with
    | ISign n :: r => (n, r)
    | _ => (false, ts)
    end in
  match read_digits false ts1 [] with
  | None => Raise ValueError
  | Some (ds, rest) =>
      match skip_spaces rest with
      | [] =>
          if over_limit limit (length ds) then Raise ValueError
          else let v := fold_left (fun a d => 10 * a + d) ds 0 in
               Ok (if negative then - v else v)
      | _ :: _ => Raise ValueError
      end
  end.

(** ** datetime

    The calendar fields of a [datetime], down to the second.  Microseconds
    and the time zone are not modelled: [strptime] with [DATE_FORMAT]
    returns naive datetimes without microseconds, and [strftime] with
    [DATE_FORMAT] shows neither. *)

Record datetime : Type := mk_datetime {
  year : Z; month : Z; day : Z; hour : Z; minute : Z; second : Z
}.

Definition is_leap (y : Z) : bool :=
  (y mod 4 =? 0) && (negb (y mod 100 =? 0) || (y mod 400 =? 0)).

Definition days_in_month (y m : Z) : Z :=
  if m =? 2 then (if is_leap y then 29 else 28)
  else if (m =? 4) || (m =? 6) || (m =? 9) || (m =? 11) then 30
  else 31.

(** The constructor [datetime(y, m, d, H, M)] raises [ValueError] outside
    the calendar. *)
Definition make_datetime (y m d H Mi : Z) : outcome datetime :=
  if (1 <=? y) && (y <=? 9999) && (1 <=? m) && (m <=? 12)
     && (1 <=? d) && (d <=? days_in_month y m)
     && (0 <=? H) && (H <=? 23) && (0 <=? Mi) && (Mi <=? 59)
  then Ok (mk_datetime y m d H Mi 0)
  else Raise ValueError.

(** ** [datetime.strptime]

    The library turns the format into a regular expression, matches it at
    the start of the text with backtracking, rejects text left over after
    the match, converts the groups with [int] and builds the datetime.  The
    model covers the directives that [DATE_FORMAT] uses. *)

Definition cclass : Type := ascii -> bool.

Inductive item : Type :=
| Grp (name : ascii) (alts : list (list cclass))
| Lit (c : ascii)
| Spaces.

Definition one (c : ascii) : cclass := Ascii.eqb c.

(** [%d]: [3[0-1]|[1-2]\d|0[1-9]|[1-9]| [1-9]] *)
Definition re_d : list (list cclass) :=
  [ [one "3"; in_range 48 49]; [in_range 49 50; is_digit];
    [one "0"; in_range 49 57]; [in_range 49 57]; [one " "; in_range 49 57] ].

(** [%m]: [1[0-2]|0[1-9]|[1-9]] *)
Definition re_m : list (list cclass) :=
  [ [one "1"; in_range 48 50]; [one "0"; in_range 49 57]; [in_range 49 57] ].

(** [%Y]: [\d\d\d\d] *)
Definition re_Y : list (list cclass) :=
  [ [is_digit; is_digit; is_digit; is_digit] ].

(** [%H]: [2[0-3]|[0-1]\d|\d] *)
Definition re_H : list (list cclass) :=
  [ [one "2"; in_range 48 51]; [in_range 48 49; is_digit]; [is_digit] ].

(** [%M]: [[0-5]\d|\d] *)
Definition re_M : list (list cclass) :=
  [ [in_range 48 53; is_digit]; [is_digit] ].

Definition directive (c : ascii) : option item :=
  if Ascii.eqb c "d" then Some (Grp c re_d)
  else if Ascii.eqb c "m" then Some (Grp c re_m)
  else if Ascii.eqb c "Y" then Some (Grp c re_Y)
  else if Ascii.eqb c "H" then Some (Grp c re_H)
  else if Ascii.eqb c "M" then Some (Grp c re_M)
  else None.

(** Format to pattern: a run of whitespace becomes one [\s+], [%x] becomes
    its group, every other character stands for itself.  [None] is a
    directive outside the model. *)
Fixpoint compile (prev_ws : bool) (fmt : list ascii) : option (list item) :=
  match fmt with
  | [] => Some []
  | "%"%char :: c :: rest =>
      match directive c, compile false rest with
      | Some g, Some its => Some (g :: its)
      | _, _ => None
      end
  | c :: rest =>
      if is_space c
      then (if prev_ws then compile true rest
            else option_map (cons Spaces) (compile true rest))
      else option_map (cons (Lit c)) (compile false rest)
  end.

Fixpoint match_classes (cs : list cclass) (s : list ascii)
  : option (list ascii * list ascii) :=
  match cs with
  | [] => Some ([], s)
  | p :: cs' =>
      match s with
      | c :: s' =>
          if p c
          then match match_classes cs' s' with
               | Some (m, r) => Some (c :: m, r)
               | None => None
               end
          else None
      | [] => None
      end
  end.

Definition found : Type := list (ascii * list ascii).

(** Alternatives are tried in order; a later alternative is used only when
    the rest of the pattern fails after an earlier one. *)
Fixpoint first_alt (name : ascii) (k : list ascii -> option (found * list ascii))
    (alts : list (list cclass)) (s : list ascii) : option (found * list ascii) :=
  match alts with
  | [] => None
  | a :: alts' =>
      match match_classes a s with
      | Some (m, r) =>
          match k r with
          | Some (gs, rest) => Some ((name, m) :: gs, rest)
          | None => first_alt name k alts' s
          end
      | None => first_alt name k alts' s
      end
  end.

(** Greedy [\s+]: take one space, prefer taking more, else go on. *)
Fixpoint plus_space (k : list ascii -> option (found * list ascii))
    (s : list ascii) : option (found * list ascii) :=
  match s with
  | c :: s' =>
      if is_space c
      then match plus_space k s' with
           | Some r => Some r
           | None => k s'
           end
      else None
  | [] => None
  end.

Fixpoint re_match (items : list item) (s : list ascii)
  : option (found * list ascii) :=
  match items with
  | [] => Some ([], s)
  | Lit c :: items' =>
      match s with
      | c' :: s' => if Ascii.eqb c c' then re_match items' s' else None
      | [] => None
      end
  | Grp name alts :: items' => first_alt name (re_match items') alts s
  | Spaces :: items' => plus_space (re_match items') s
  end.

Fixpoint group (name : ascii) (f : found) : option (list ascii) :=
  match f with
  | [] => None
  | (n, m) :: f' => if Ascii.eqb n name then Some m else group name f'
  end.

(** A field that the format does not mention takes its default. *)
Definition field (name : ascii) (default : Z) (f : found) : outcome Z :=
  match group name f with
  | Some m => py_int_chars m
  | None => Ok default
  end.

Definition strptime (text fmt : string) : outcome datetime :=
  match compile false (chars fmt) with
  | None => Raise ValueError
  | Some items =>
      match re_match items (chars text) with
      | None => Raise ValueError
      | Some (f, _ :: _) => Raise ValueError
      | Some (f, []) =>
          match field "Y" 1900 f, field "m" 1 f, field "d" 1 f,
                field "H" 0 f, field "M" 0 f with
          | Ok y, Ok m, Ok d, Ok H, Ok Mi => make_datetime y m d H Mi
          | _, _, _, _, _ => Raise ValueError
          end
      end
  end.

(** ** [datetime.strftime]

    Each directive of [DATE_FORMAT] is written as a decimal number padded
    with zeros to its width (two digits, four for the year); every other
    character of the format is copied.  A directive outside the model is
    copied as written; [DATE_FORMAT] has none.  (Platforms differ on the
    padding of years below 1000; the properties are stated from 1000 on.) *)

Definition digit_char (n : Z) : ascii := ascii_of_N (Z.to_N (48 + n)).

Fixpoint zero_padded (width : nat) (n : Z) : list ascii :=
  match width with
  | O => []
  | S w => zero_padded w (n / 10) ++ [digit_char (n mod 10)]
  end.

Definition render (c : ascii) (dt : datetime) : option (list ascii) :=
  if Ascii.eqb c "d" then Some (zero_padded 2 (day dt))
  else if Ascii.eqb c "m" then Some (zero_padded 2 (month dt))
  else if Ascii.eqb c "Y" then Some (zero_padded 4 (year dt))
  else if Ascii.eqb c "H" then Some (zero_padded 2 (hour dt))
  else if Ascii.eqb c "M" then Some (zero_padded 2 (minute dt))
  else None.

Fixpoint strftime_chars (dt : datetime) (fmt : list ascii) : list ascii :=
  match fmt with
  | [] => []
  | "%"%char :: c :: rest =>
      match render c dt with
      | Some r => r ++ strftime_chars dt rest
      | None => "%"%char :: c :: strftime_chars dt rest
      end
  | c :: rest => c :: strftime_chars dt rest
  end.

Definition strftime (dt : datetime) (fmt : string) : string :=
  string_of_list_ascii (strftime_chars dt (chars fmt)).

(** ** Values and API schemas

    [src/api/schemas] is outside these files; the records carry the fields
    that the handlers read or write. *)

Record UserInfo : Type := mk_user { fullname : string }.

Record TaskInfoResponse : Type := mk_task {
  task_name : string;
  task_description : option string;
  task_start_date : datetime;
  task_period : Z;
  order_id : option Z
}.

Record OrderInfoResponse : Type := mk_order { users : list UserInfo }.

Record RoomInfo : Type := mk_room { room_id : Z; room_name : string }.

Inductive pyval : Type :=
| PyNone
| PyBool (b : bool)
| PyInt (z : Z)
| PyStr (s : string)
| PyDatetime (d : datetime)
| PyTaskInfo (t : TaskInfoResponse)
| PyUsers (us : list UserInfo)
| RoomDialogStartData (id : pyval) (name : pyval)
| TaskViewDialogStartData (task_id : pyval).

(** Modelled from the spec: the schema class [ModifyTaskBody] of
    [src/api/schemas/method_input_schemas.py] is missing.  The record keeps
    what the handlers hand to its constructor,
    [ModifyTaskBody(id=..., field=...)]; a keyword that the call does not
    pass is [None] here.  What the schema makes of the [period] keyword is
    [schema_period] below. *)
Record ModifyTaskBody : Type := mk_body {
  body_id : pyval;
  body_name : option pyval;
  body_description : option pyval;
  body_start_date : option pyval;
  body_period : option pyval
}.



(** Truth value of an object, as [if result:] tests it. *)
Definition truthy (v : pyval) : bool :=
  match v with
  | PyNone => false
  | PyBool b => b
  | PyInt z => negb (z =? 0)
  | PyStr s => negb (String.eqb s "")
  | PyUsers us => match us with [] => false | _ => true end
  | _ => true
  end.

Definition is_none (v : pyval) : bool :=
  match v with PyNone => true | _ => false end.

(** [v == "tag"] for a string literal on the right. *)
Definition eq_str (v : pyval) (tag : string) : bool :=
  match v with PyStr s => String.eqb s tag | _ => false end.

(** The start payload of a dialog ([Data]): a dict, or anything else. *)
Inductive start_payload : Type :=
| NotDict (v : pyval)
| Dict (d : gmap string pyval).

Inductive dialog_state : Type :=
| RoomSG_main
| RoomlessSG_welcome
| PromptSG_main
| ConfirmationSG_main
| TaskViewSG_main
| IncomingInvitationsSG_list.

Inductive StartMode : Type := NORMAL | RESET_STACK | NEW_STACK.
Inductive ShowMode : Type := AUTO | EDIT | SEND.

(** ** The log: every call to the API client and to the dialog manager *)

Inductive event : Type :=
| CreateUser (user_id : Z)
| GetRoomInfo (user_id : Z)
| CreateRoom (name : pyval) (user_id : Z)
| GetTaskInfo (task_id : pyval) (user_id : Z)
| GetOrderInfo (order : Z) (user_id : Z)
| ModifyTask (body : ModifyTaskBody) (user_id : Z)
| DeleteTask (task_id : pyval) (user_id : Z)
| ManagerStart (state : dialog_state) (data : start_payload) (mode : StartMode)
| ManagerShow (mode : ShowMode)
| ManagerDone (mode : ShowMode).

Definition is_remote (e : event) : bool :=
  match e with
  | ManagerStart _ _ _ | ManagerShow _ | ManagerDone _ => false
  | _ => true
  end.


Definition is_start (e : event) : bool :=
  match e with ManagerStart _ _ _ => true | _ => false end.

(** ** The API client

    [src/api/client] is outside these files and is a parameter: each
    operation answers from the state of the remote server and may change it.
    A failed call is the [RuntimeError] that [start_message_handler]
    catches. *)

Inductive remote (A : Type) : Type :=
| Reply (a : A)
| RemoteError.
Arguments Reply {A} a.
Arguments RemoteError {A}.

Record Client (Server : Type) : Type := mk_client {
  create_user : Z -> Server -> remote unit * Server;
  get_room_info : Z -> Server -> remote RoomInfo * Server;
  create_room : pyval -> Z -> Server -> remote Z * Server;
  get_task_info : pyval -> Z -> Server -> remote TaskInfoResponse * Server;
  get_order_info : Z -> Z -> Server -> remote OrderInfoResponse * Server;
  modify_task : ModifyTaskBody -> Z -> Server -> remote unit * Server;
  delete_task : pyval -> Z -> Server -> remote unit * Server
}.
Arguments create_user {Server} _ _ _.
Arguments get_room_info {Server} _ _ _.
Arguments create_room {Server} _ _ _ _.
Arguments get_task_info {Server} _ _ _ _.
Arguments get_order_info {Server} _ _ _ _.
Arguments modify_task {Server} _ _ _ _.
Arguments delete_task {Server} _ _ _ _.

(** ** The handler monad *)

Record world (Server : Type) : Type := mk_world {
  server : Server;
  from_user_id : Z;
  dialog_data : gmap string pyval;
  log : list event
}.
Arguments mk_world {Server} _ _ _ _.
Arguments server {Server} _.
Arguments from_user_id {Server} _.
Arguments dialog_data {Server} _.
Arguments log {Server} _.

Definition M (Server A : Type) : Type := world Server -> outcome A * world Server.

Section Monad.
Context {Server : Type}.

Definition ret {A} (a : A) : M Server A := fun w => (Ok a, w).

Definition bind {A B} (m : M Server A) (k : A -> M Server B) : M Server B :=
  fun w =>
    match m w with
    | (Ok a, w') => k a w'
    | (Raise e, w') => (Raise e, w')
    end.

Definition lift {A} (o : outcome A) : M Server A := fun w => (o, w).

Definition emit (e : event) : M Server unit :=
  fun w => (Ok tt, mk_world (server w) (from_user_id w) (dialog_data w) (log w ++ [e])).

(** [await client.op(...)]: the call is logged, the server moves on, and
    a failure is raised. *)
Definition call {A} (e : event) (op : Server -> remote A * Server) : M Server A :=
  fun w =>
    let '(r, s') := op (server w) in
    let w' := mk_world s' (from_user_id w) (dialog_data w) (log w ++ [e]) in
    match r with
    | Reply a => (Ok a, w')
    | RemoteError => (Raise RuntimeError, w')
    end.

(** [manager.event.from_user.id] *)
Definition event_from_user_id : M Server Z := fun w => (Ok (from_user_id w), w).

(** [manager.dialog_data[key]] *)
Definition dialog_data_get (key : string) : M Server pyval :=
  fun w =>
    match dialog_data w !! key with
    | Some v => (Ok v, w)
    | None => (Raise (KeyError key), w)
    end.

(** [manager.dialog_data[key] = v] *)
Definition dialog_data_set (key : string) (v : pyval) : M Server unit :=
  fun w => (Ok tt, mk_world (server w) (from_user_id w) (<[key := v]> (dialog_data w)) (log w)).

(** [try: body / except RuntimeError: handler] *)
Definition try_except_RuntimeError {A} (body handler : M Server A) : M Server A :=
  fun w =>
    match body w with
    | (Raise RuntimeError, w') => handler w'
    | r => r
    end.
End Monad.

Notation "x <- c1 ;; c2" := (bind c1 (fun x => c2))
  (at level 100, c1 at next level, right associativity).
Notation "c1 ;; c2" := (bind c1 (fun _ => c2))
  (at level 100, right associativity).

(** [d[key]] on a dict. *)
Definition dict_get (d : gmap string pyval) (key : string) : outcome pyval :=
  match d !! key with
  | Some v => Ok v
  | None => Raise (KeyError key)
  end.

(** [obj.task_id] *)
Definition attr_task_id (v : pyval) : outcome pyval :=
  match v with
  | TaskViewDialogStartData t => Ok t
  | _ => Raise (AttributeError "task_id")
  end.

(** [start_data["intent"] == tag] *)
Definition intent_is {Server} (d : gmap string pyval) (tag : string) : M Server bool :=
  v <- lift (dict_get d "intent") ;;
  ret (eq_str v tag).

(** How a block of statements ends: by [return], or by reaching its end. *)
Inductive flow : Type := Returned | FellThrough.

(** ** src/bot/dialogs/task_view.py *)

Module TaskView.

Definition DATE_FORMAT : string := "%d.%m.%Y %H:%M".

Definition parse_datetime (text : pyval) : outcome datetime :=
  match text with
  | PyStr s => strptime s DATE_FORMAT
  | _ => Raise TypeError
  end.

(** [return s.isdecimal() and int(s) > 0], for the Unicode database [U]
    and the digit limit [limit] of the interpreter that runs it. *)
Definition period_filter (U : UnicodeData) (limit : Z) (s : ustr) : outcome pyval :=
  if isdecimal U s
  then match int_str U limit s with
       | Ok n => Ok (PyBool (0 <? n))
       | Raise e => Raise e
       end
  else Ok (PyBool false).

(** The [try] body has no [return]: when [parse_datetime] succeeds the
    function runs off its end and yields [None]. *)
Definition start_date_filter (text : string) : outcome pyval :=
  match parse_datetime (PyStr text) with
  | Ok _ => Ok PyNone
  | Raise ValueError => Ok (PyBool false)
  | Raise e => Raise e
  end.

Definition known_intents : list string :=
  ["delete"; "edit_name"; "edit_description"; "edit_start_date"; "edit_period"].

Section WithClient.
Context {Server : Type} (client : Client Server).

(** [Loader.load_task_info] *)
Definition load_task_info : M Server unit :=
  user_id <- event_from_user_id ;;
  task_id <- dialog_data_get "task_id" ;;
  task_data <- call (GetTaskInfo task_id user_id) (get_task_info client task_id user_id) ;;
  dialog_data_set "task" (PyTaskInfo task_data) ;;
  match order_id task_data with
  | None => dialog_data_set "executors" PyNone
  | Some oid =>
      order_data <- call (GetOrderInfo oid user_id) (get_order_info client oid user_id) ;;
      dialog_data_set "executors" (PyUsers (users order_data))
  end.

(** [Events.on_start] *)
Definition on_start (start_data : gmap string pyval) : M Server unit :=
  args <- lift (dict_get start_data "input") ;;
  task_id <- lift (attr_task_id args) ;;
  dialog_data_set "task_id" task_id ;;
  load_task_info.

(** The [if]/[elif] chain of [Events.on_process_result]. *)
Definition dispatch (d : gmap string pyval) (result task_id : pyval) (user_id : Z)
  : M Server flow :=
  is_delete <- intent_is d "delete" ;;
  if is_delete then
    if truthy result then
      call (DeleteTask task_id user_id) (delete_task client task_id user_id) ;;
      emit (ManagerDone SEND) ;;
      ret Returned
    else ret FellThrough
  else
  is_name <- intent_is d "edit_name" ;;
  if is_name then
    if negb (is_none result) then
      let body := mk_body task_id (Some result) None None None in
      call (ModifyTask body user_id) (modify_task client body user_id) ;;
      load_task_info ;;
      ret FellThrough
    else ret FellThrough
  else
  is_description <- intent_is d "edit_description" ;;
  if is_description then
    if negb (is_none result) then
      let body := mk_body task_id None (Some result) None None in
      call (ModifyTask body user_id) (modify_task client body user_id) ;;
      load_task_info ;;
      ret FellThrough
    else ret FellThrough
  else
  is_start_date <- intent_is d "edit_start_date" ;;
  if is_start_date then
    if negb (is_none result) then
      start_date <- lift (parse_datetime result) ;;
      let body := mk_body task_id None None (Some (PyDatetime start_date)) None in
      call (ModifyTask body user_id) (modify_task client body user_id) ;;
      load_task_info ;;
      ret FellThrough
    else ret FellThrough
  else
  is_period <- intent_is d "edit_period" ;;
  if is_period then
    if negb (is_none result) then
      let body := mk_body task_id None None None (Some result) in
      call (ModifyTask body user_id) (modify_task client body user_id) ;;
      load_task_info ;;
      ret FellThrough
    else ret FellThrough
  else ret FellThrough.

(** [Events.on_process_result] *)
Definition on_process_result (start_data : start_payload) (result : pyval)
  : M Server unit :=
  match start_data with
  | NotDict _ => ret tt
  | Dict d =>
      task_id <- dialog_data_get "task_id" ;;
      user_id <- event_from_user_id ;;
      f <- dispatch d result task_id user_id ;;
      match f with
      | Returned => ret tt
      | FellThrough => emit (ManagerShow SEND)
      end
  end.
End WithClient.

(** [TaskRepresentation] and its property [start_date_repr] *)
Record TaskRepresentation : Type := mk_representation {
  name : string;
  description : option string;
  start_date : datetime;
  period : Z
}.

Definition start_date_repr (self : TaskRepresentation) : string :=
  strftime (start_date self) DATE_FORMAT.

(** The dict that [getter] returns. *)
Record window_data : Type := mk_window_data {
  data_task : TaskRepresentation;
  data_executors : pyval
}.

(** [task.name], [task.description], ...: the attributes of a task info. *)
Definition task_attributes (task : pyval) : outcome TaskInfoResponse :=
  match task with
  | PyTaskInfo t => Ok t
  | _ => Raise (AttributeError "name")
  end.

(** [getter] *)
Definition getter {Server} : M Server window_data :=
  task <- dialog_data_get "task" ;;
  executors <- dialog_data_get "executors" ;;
  t <- lift (task_attributes task) ;;
  ret (mk_window_data
         (mk_representation (task_name t) (task_description t)
                            (task_start_date t) (task_period t))
         executors).

End TaskView.

(** ** src/bot/dialogs/roomless.py *)

Module Roomless.

Definition known_intents : list string := ["create_room"].

Section WithClient.
Context {Server : Type} (client : Client Server).

(** [Events.on_process_result] *)
Definition on_process_result (start_data : start_payload) (result : pyval)
  : M Server unit :=
  match start_data with
  | NotDict _ => ret tt
  | Dict d =>
      is_create <- intent_is d "create_room" ;;
      if is_create then
        if negb (is_none result) then
          user_id <- event_from_user_id ;;
          room <- call (CreateRoom result user_id) (create_room client result user_id) ;;
          emit (ManagerStart RoomSG_main
                  (Dict {[ "input" := RoomDialogStartData (PyInt room) result ]})
                  RESET_STACK)
        else emit (ManagerShow SEND)
      else ret tt
  end.
End WithClient.

End Roomless.

(** ** src/bot/start_message.py *)

Module StartMessage.

Section WithClient.
Context {Server : Type} (client : Client Server).

(** [start_message_handler]; [user_id] is [message.from_user.id]. *)
Definition start_message_handler (user_id : Z) : M Server unit :=
  try_except_RuntimeError
    (call (CreateUser user_id) (create_user client user_id))
    (ret tt) ;;
  try_except_RuntimeError
    (room_info <- call (GetRoomInfo user_id) (get_room_info client user_id) ;;
     emit (ManagerStart RoomSG_main
             (Dict {[ "input" := RoomDialogStartData (PyInt (room_id room_info))
                                                     (PyStr (room_name room_info)) ]})
             RESET_STACK))
    (emit (ManagerStart RoomlessSG_welcome (NotDict PyNone) RESET_STACK)).
End WithClient.

End StartMessage.

(** ** An in-memory server

    A small implementation of the client interface, used to run the handlers
    on concrete conversations. *)

Module Memory.

Record store : Type := mk_store {
  registered : list Z;
  rooms : gmap Z RoomInfo;
  tasks : gmap Z TaskInfoResponse;
  orders : gmap Z OrderInfoResponse;
  next_room : Z
}.

Definition m_create_user (uid : Z) (s : store) : remote unit * store :=
  if existsb (Z.eqb uid) (registered s)
  then (RemoteError, s)
  else (Reply tt, mk_store (uid :: registered s) (rooms s) (tasks s) (orders s) (next_room s)).

Definition m_get_room_info (uid : Z) (s : store) : remote RoomInfo * store :=
  match rooms s !! uid with
  | Some r => (Reply r, s)
  | None => (RemoteError, s)
  end.

Definition m_create_room (name : pyval) (uid : Z) (s : store) : remote Z * store :=
  match name with
  | PyStr n =>
      (Reply (next_room s),
       mk_store (registered s) (<[uid := mk_room (next_room s) n]> (rooms s))
                (tasks s) (orders s) (next_room s + 1))
  | _ => (RemoteError, s)
  end.

Definition m_get_task_info (tid : pyval) (uid : Z) (s : store)
  : remote TaskInfoResponse * store :=
  match tid with
  | PyInt t => match tasks s !! t with
               | Some ti => (Reply ti, s)
               | None => (RemoteError, s)
               end
  | _ => (RemoteError, s)
  end.

Definition m_get_order_info (oid uid : Z) (s : store)
  : remote OrderInfoResponse * store :=
  match orders s !! oid with
  | Some o => (Reply o, s)
  | None => (RemoteError, s)
  end.

Definition patch (b : ModifyTaskBody) (t : TaskInfoResponse) : TaskInfoResponse :=
  mk_task
    (match body_name b with Some (PyStr n) => n | _ => task_name t end)
    (match body_description b with Some (PyStr d) => Some d | _ => task_description t end)
    (match body_start_date b with Some (PyDatetime d) => d | _ => task_start_date t end)
    (match body_period b with
     | Some (PyInt p) => p
     | Some (PyStr p) => match py_int p with Ok z => z | Raise _ => task_period t end
     | _ => task_period t
     end)
    (order_id t).

Definition m_modify_task (b : ModifyTaskBody) (uid : Z) (s : store) : remote unit * store :=
  match body_id b with
  | PyInt t =>
      match tasks s !! t with
      | Some ti =>
          (Reply tt, mk_store (registered s) (rooms s) (<[t := patch b ti]> (tasks s))
                              (orders s) (next_room s))
      | None => (RemoteError, s)
      end
  | _ => (RemoteError, s)
  end.

Definition m_delete_task (tid : pyval) (uid : Z) (s : store) : remote unit * store :=
  match tid with
  | PyInt t =>
      match tasks s !! t with
      | Some _ =>
          (Reply tt, mk_store (registered s) (rooms s) (delete t (tasks s))
                              (orders s) (next_room s))
      | None => (RemoteError, s)
      end
  | _ => (RemoteError, s)
  end.

Definition client : Client store :=
  mk_client store m_create_user m_get_room_info m_create_room m_get_task_info
            m_get_order_info m_modify_task m_delete_task.

Definition groceries : TaskInfoResponse :=
  mk_task "Groceries" None (mk_datetime 2024 1 1 10 0 0) 7 (Some 3).

Definition laundry : TaskInfoResponse :=
  mk_task "Laundry" (Some "whites") (mk_datetime 2024 2 29 8 30 0) 14 None.

Definition alice : UserInfo := mk_user "Alice".
Definition bob : UserInfo := mk_user "Bob".

Definition home : store :=
  mk_store [42] ∅ (<[1 := groceries]> (<[2 := laundry]> ∅))
           {[ 3 := mk_order [alice; bob] ]} 100.

(** A conversation of user 42 looking at task [tid], before [on_start]. *)
Definition session (tid : Z) : world store :=
  mk_world home 42 {[ "task_id" := PyInt tid ]} [].

(** The same conversation after [on_start] has run. *)
Definition viewing (tid : Z) : world store :=
  snd (TaskView.load_task_info client (session tid)).

End Memory.

(** * Vocabulary of the properties *)


(** The same for any text: a decimal digit of the database, the value of a
    numeral, and a number of digits that the interpreter's limit lets
    through. *)
Definition unicode_digit (U : UnicodeData) (c : N) : Prop :=
  exists d : Z, udecimal U c = Some d.

Definition digit_of (U : UnicodeData) (c : N) : Z :=
  match udecimal U c with
  | Some d => d
  | None => 0
  end.

Fixpoint numeral_value (U : UnicodeData) (s : ustr) : Z :=
  match s with
  | [] => 0
  | c :: s' => digit_of U c * 10 ^ Z.of_nat (length s') + numeral_value U s'
  end.

Definition within_limit (limit : Z) (digits : nat) : Prop :=
  limit <= 0 \/ Z.of_nat digits <= Z.max limit 640.

(** The world after further calls [es] were logged. *)
Definition logged {Server} (w : world Server) (es : list event) : world Server :=
  mk_world (server w) (from_user_id w) (dialog_data w) (log w ++ es).

Definition on_server {Server} (w : world Server) (s : Server) : world Server :=
  mk_world s (from_user_id w) (dialog_data w) (log w).

(** What one refresh reads from the remote side, starting from server
    state [s]: the task, and the order of the task when it has one. *)
Definition fetched {Server} (client : Client Server) (tid : pyval) (uid : Z) (s : Server)
  : option (TaskInfoResponse * option OrderInfoResponse) :=
  match get_task_info client tid uid s with
  | (Reply t, s1) =>
      match order_id t with
      | None => Some (t, None)
      | Some oid =>
          match get_order_info client oid uid s1 with
          | (Reply od, _) => Some (t, Some od)
          | (RemoteError, _) => None
          end
      end
  | (RemoteError, _) => None
  end.

Definition executors_of (o : option OrderInfoResponse) : pyval :=
  match o with
  | None => PyNone
  | Some od => PyUsers (users od)
  end.

(** The remote call that the specification attaches to each edit intent:
    the body carries the task id and the one edited field. *)
Definition edit_body (tag : string) (tid result : pyval) : option ModifyTaskBody :=
  if String.eqb tag "edit_name" then Some (mk_body tid (Some result) None None None)
  else if String.eqb tag "edit_description" then Some (mk_body tid None (Some result) None None)
  else if String.eqb tag "edit_start_date" then
    match TaskView.parse_datetime result with
    | Ok dt => Some (mk_body tid None None (Some (PyDatetime dt)) None)
    | Raise _ => None
    end
  else if String.eqb tag "edit_period" then Some (mk_body tid None None None (Some result))
  else None.

Definition edit_intents : list string :=
  ["edit_name"; "edit_description"; "edit_start_date"; "edit_period"].

(** The order fetch that a refresh makes for task [t]. *)
Definition order_call (t : TaskInfoResponse) (uid : Z) : list event :=
  match order_id t with
  | Some oid => [GetOrderInfo oid uid]
  | None => []
  end.

(** ** Dispatchers and payloads *)

Inductive dispatcher : Type := TaskViewDispatcher | RoomlessDispatcher.

Definition known_intents (which : dispatcher) : list string :=
  match which with
  | TaskViewDispatcher => TaskView.known_intents
  | RoomlessDispatcher => Roomless.known_intents
  end.

Definition run_dispatcher {Server} (client : Client Server) (which : dispatcher)
  : start_payload -> pyval -> M Server unit :=
  match which with
  | TaskViewDispatcher => TaskView.on_process_result client
  | RoomlessDispatcher => Roomless.on_process_result client
  end.

(** A payload that is no dict at all, or a dict whose ["intent"] entry is
    none of the tags the dispatcher tests for. *)
Definition unrecognised (known : list string) (sd : start_payload) : Prop :=
  match sd with
  | NotDict _ => True
  | Dict d => exists v, d !! "intent" = Some v /\ forall tag, In tag known -> v <> PyStr tag
  end.

(** What the dispatcher still asks of the dialog manager on such a payload:
    the task view shows its screen again when the payload is a dict. *)
Definition redisplay (which : dispatcher) (sd : start_payload) : list event :=
  match which, sd with
  | TaskViewDispatcher, Dict _ => [ManagerShow SEND]
  | _, _ => []
  end.

(** User 7 has no room yet and sees the welcome screen. *)
Definition welcome : world Memory.store := mk_world Memory.home 7 ∅ [].

(** The dialog that the handler starts, from the answer to the room
    fetch. *)
Definition routed (r : remote RoomInfo) : event :=
  match r with
  | Reply room =>
      ManagerStart RoomSG_main
        (Dict {[ "input" := RoomDialogStartData (PyInt (room_id room))
                                                (PyStr (room_name room)) ]})
        RESET_STACK
  | RemoteError => ManagerStart RoomlessSG_welcome (NotDict PyNone) RESET_STACK
  end.

(** ** The dispatcher as a table *)

(** What the task view does with a result, once the tag and the result are
    known. *)
Inductive plan : Type :=
| PlanDelete
| PlanEdit (body : ModifyTaskBody)
| PlanRaise (e : exn)
| PlanShow.

Definition table (v tid result : pyval) : plan :=
  if eq_str v "delete" then (if truthy result then PlanDelete else PlanShow)
  else if is_none result then PlanShow
  else if eq_str v "edit_name" then PlanEdit (mk_body tid (Some result) None None None)
  else if eq_str v "edit_description" then PlanEdit (mk_body tid None (Some result) None None)
  else if eq_str v "edit_start_date" then
    match TaskView.parse_datetime result with
    | Ok dt => PlanEdit (mk_body tid None None (Some (PyDatetime dt)) None)
    | Raise e => PlanRaise e
    end
  else if eq_str v "edit_period" then PlanEdit (mk_body tid None None None (Some result))
  else PlanShow.

Definition run_plan {Server} (client : Client Server) (p : plan) (tid : pyval) (uid : Z)
  : M Server unit :=
  match p with
  | PlanDelete =>
      call (DeleteTask tid uid) (delete_task client tid uid) ;;
      emit (ManagerDone SEND)
  | PlanEdit body =>
      call (ModifyTask body uid) (modify_task client body uid) ;;
      TaskView.load_task_info client ;;
      emit (ManagerShow SEND)
  | PlanRaise e => lift (Raise e)
  | PlanShow => emit (ManagerShow SEND)
  end.

Definition is_fetch (e : event) : bool :=
  match e with
  | GetTaskInfo _ _ | GetOrderInfo _ _ => true
  | _ => false
  end.

Definition is_delete (e : event) : bool :=
  match e with DeleteTask _ _ => true | _ => false end.

(** The calls that running a plan can add to the log. *)
Definition plan_events (p : plan) (tid : pyval) (uid : Z) (es : list event) : Prop :=
  match p with
  | PlanDelete => es = [DeleteTask tid uid] \/ es = [DeleteTask tid uid; ManagerDone SEND]
  | PlanEdit body =>
      exists fs tail,
        es = ModifyTask body uid :: fs ++ tail
        /\ Forall (fun e => is_fetch e = true) fs
        /\ (tail = [] \/ tail = [ManagerShow SEND])
  | PlanRaise _ => es = []
  | PlanShow => es = [ManagerShow SEND]
  end.

(** ** Dates *)

(** A date and time of the calendar, as every [datetime] object is. *)
Definition calendar (dt : datetime) : Prop :=
  1 <= year dt <= 9999 /\ 1 <= month dt <= 12
  /\ 1 <= day dt <= days_in_month (year dt) (month dt)
  /\ 0 <= hour dt <= 23 /\ 0 <= minute dt <= 59.

Definition whole_minute (dt : datetime) : datetime :=
  mk_datetime (year dt) (month dt) (day dt) (hour dt) (minute dt) 0.

(** The pattern of [DATE_FORMAT]. *)
Definition date_items : list item :=
  [Grp "d" re_d; Lit "."; Grp "m" re_m; Lit "."; Grp "Y" re_Y; Spaces;
   Grp "H" re_H; Lit ":"; Grp "M" re_M].

(** ** More conversations on the in-memory server *)

(** Task 5 names order 9, which the server does not have. *)
Definition dangling : Memory.store :=
  Memory.mk_store [42]
    ∅ (<[5 := mk_task "Dishes" None (mk_datetime 2024 3 1 9 0 0) 1 (Some 9)]> ∅) ∅ 100.

Definition stale_session : world Memory.store :=
  mk_world dangling 42
    (<["executors" := PyUsers [Memory.alice]]>
       (<["task" := PyTaskInfo Memory.laundry]> {[ "task_id" := PyInt 5 ]})) [].

(** * Properties *)

(** ** Text and numbers *)

Lemma in_range_spec lo hi c : in_range lo hi c = true <-> lo <= code c <= hi.
Proof. unfold in_range. rewrite andb_true_iff, !Z.leb_le. tauto. Qed.

Lemma digit_not_space c : is_digit c = true -> is_space c = false.
Proof.
  unfold is_digit, is_space. rewrite in_range_spec. intros H.
  apply orb_false_iff. split; apply not_true_is_false; rewrite in_range_spec; lia.
Qed.

Lemma digit_not_c_space c : is_digit c = true -> is_c_space c = false.
Proof.
  unfold is_digit, is_c_space. rewrite in_range_spec. intros H.
  apply orb_false_iff. split; apply not_true_is_false; rewrite in_range_spec; lia.
Qed.

Lemma lstrip_digits cs : forallb is_digit cs = true -> lstrip cs = cs.
Proof.
  destruct cs as [|c cs]; [done|]. simpl.
  intros [Hc _]%andb_true_iff. by rewrite (digit_not_c_space c Hc).
Qed.

Lemma forallb_rev {A} (p : A -> bool) l : forallb p (rev l) = forallb p l.
Proof.
  induction l as [|a l IH]; [done|]. simpl.
  rewrite forallb_app, IH. simpl. rewrite andb_true_r. apply andb_comm.
Qed.

Lemma strip_digits cs : forallb is_digit cs = true -> strip cs = cs.
Proof.
  intros H. unfold strip. rewrite (lstrip_digits cs H).
  rewrite lstrip_digits by (by rewrite forallb_rev). apply rev_involutive.
Qed.



(** On a non-empty run of digits [int] succeeds with its value. *)
Lemma py_int_chars_digits cs :
  cs <> [] -> forallb is_digit cs = true ->
  py_int_chars cs = Ok (digits_value cs).
Proof.
  intros Hne Hd. unfold py_int_chars. rewrite (strip_digits cs Hd).
  destruct cs as [|c cs]; [done|].
  assert (Hc : is_digit c = true) by (simpl in Hd; by apply andb_true_iff in Hd as [? _]).
  assert (Hsign : c <> "-"%char /\ c <> "+"%char).
  { split; intros ->; vm_compute in Hc; discriminate. }
  destruct Hsign as [Hm Hp].
  destruct c as [[] [] [] [] [] [] [] []]; try (exfalso; by (apply Hm || apply Hp));
    cbv beta iota; rewrite Hd; reflexivity.
Qed.

(** ** The period filter *)

(** A database for concrete runs: the digits of ASCII, the Arabic-Indic
    digits U+0660..U+0669 and the fullwidth digits U+FF10..U+FF19, with the
    white space of Unicode. *)
Definition sample_decimal (c : N) : option Z :=
  if ((48 <=? c) && (c <=? 57))%N then Some (Z.of_N c - 48)
  else if ((1632 <=? c) && (c <=? 1641))%N then Some (Z.of_N c - 1632)
  else if ((65296 <=? c) && (c <=? 65305))%N then Some (Z.of_N c - 65296)
  else None.

Definition sample_space (c : N) : bool :=
  ((9 <=? c) && (c <=? 13) || (28 <=? c) && (c <=? 32) || (c =? 133) || (c =? 160)
   || (c =? 5760) || (8192 <=? c) && (c <=? 8202) || (c =? 8232) || (c =? 8233)
   || (c =? 8239) || (c =? 8287) || (c =? 12288))%N.

Lemma sample_latin1 c :
  (c < 256)%N ->
  sample_decimal c
  = if ((48 <=? c) && (c <=? 57))%N then Some (Z.of_N c - 48) else None.
Proof.
  intros H. unfold sample_decimal. destruct ((48 <=? c) && (c <=? 57))%N; [done|].
  assert ((1632 <=? c)%N = false) as -> by (apply N.leb_gt; lia).
  assert ((65296 <=? c)%N = false) as -> by (apply N.leb_gt; lia).
  done.
Qed.

Lemma sample_not_space c d : sample_decimal c = Some d -> sample_space c = false.
Proof.
  unfold sample_decimal, sample_space. intros H.
  assert ((48 <= c <= 57) \/ (1632 <= c <= 1641) \/ (65296 <= c <= 65305))%N as Hc.
  { destruct ((48 <=? c) && (c <=? 57))%N eqn:E1.
    { apply andb_true_iff in E1 as [?%N.leb_le ?%N.leb_le]. lia. }
    destruct ((1632 <=? c) && (c <=? 1641))%N eqn:E2.
    { apply andb_true_iff in E2 as [?%N.leb_le ?%N.leb_le]. lia. }
    destruct ((65296 <=? c) && (c <=? 65305))%N eqn:E3; [|discriminate].
    apply andb_true_iff in E3 as [?%N.leb_le ?%N.leb_le]. lia. }
  rewrite !orb_false_iff, !andb_false_iff, !N.eqb_neq, !N.leb_gt. lia.
Qed.

Definition sample_unicode : UnicodeData :=
  mk_unicode sample_decimal sample_space sample_latin1 sample_not_space.

Section PeriodFilter.
Context (U : UnicodeData) (limit : Z).
Implicit Types (s : ustr) (c : N).

Lemma isdecimal_spec s :
  isdecimal U s = true <-> s <> [] /\ Forall (unicode_digit U) s.
Proof.
  assert (Hall : forall l,
             forallb (fun c => match udecimal U c with Some _ => true | None => false end) l
             = true <-> Forall (unicode_digit U) l).
  { intros l. rewrite forallb_forall, Forall_forall. split; intros H c Hc.
    - apply list_elem_of_In, H in Hc. unfold unicode_digit.
      destruct (udecimal U c); [eauto | discriminate].
    - apply list_elem_of_In, H in Hc as [d ->]. done. }
  destruct s as [|c s]; [split; [discriminate | by intros [? _]]|].
  unfold isdecimal. rewrite Hall. split; [by intros ? | by intros [_ ?]].
Qed.

Lemma read_char_digit c d : udecimal U c = Some d -> read_char U c = IDigit d.
Proof.
  intros H. unfold read_char. destruct (c <? 127)%N eqn:E.
  - apply N.ltb_lt in E. rewrite udecimal_latin1 in H by lia.
    destruct ((48 <=? c) && (c <=? 57))%N eqn:E1; [|discriminate].
    injection H as <-.
    apply andb_true_iff in E1 as [?%N.leb_le ?%N.leb_le].
    assert (((9 <=? c) && (c <=? 13) || (c =? 32))%N = false) as ->; [|done].
    rewrite orb_false_iff, andb_false_iff, N.eqb_neq, !N.leb_gt. lia.
  - by rewrite (udecimal_not_space U c d H), H.
Qed.

Lemma read_chars_digits s :
  Forall (unicode_digit U) s ->
  map (read_char U) s = map IDigit (map (digit_of U) s).
Proof.
  induction 1 as [|c s [d Hd] _ IH]; [done|]. simpl.
  rewrite IH, (read_char_digit c d Hd). unfold digit_of. by rewrite Hd.
Qed.

Lemma read_digits_all ds acc :
  read_digits true (map IDigit ds) acc = Some (rev acc ++ ds, []).
Proof.
  revert acc. induction ds as [|d ds IH]; intros acc; simpl.
  - by rewrite app_nil_r.
  - rewrite IH. simpl. by rewrite <- app_assoc.
Qed.

Lemma fold_numeral s acc :
  fold_left (fun a d => 10 * a + d) (map (digit_of U) s) acc
  = acc * 10 ^ Z.of_nat (length s) + numeral_value U s.
Proof.
  revert acc. induction s as [|c s IH]; intros acc; simpl fold_left.
  - simpl. lia.
  - rewrite IH. cbn [length numeral_value].
    rewrite Nat2Z.inj_succ, Z.pow_succ_r by lia. ring.
Qed.

(** On a numeral of decimal digits [int] answers with its value, unless
    the numeral is longer than the limit allows. *)
Lemma int_str_decimal s :
  s <> [] -> Forall (unicode_digit U) s ->
  int_str U limit s
  = if over_limit limit (length s) then Raise ValueError else Ok (numeral_value U s).
Proof.
  intros Hne Hd. unfold int_str. rewrite (read_chars_digits s Hd).
  destruct s as [|c s]; [done|]. cbn [map skip_spaces read_digits].
  rewrite read_digits_all. cbn [rev app skip_spaces length].
  rewrite length_map.
  destruct (over_limit limit (S (length s))); [done|].
  change (digit_of U c :: map (digit_of U) s) with (map (digit_of U) (c :: s)).
  by rewrite fold_numeral.
Qed.

Lemma over_limit_spec n : over_limit limit n = false <-> within_limit limit n.
Proof.
  unfold over_limit, within_limit.
  rewrite !andb_false_iff, !Z.ltb_ge. lia.
Qed.

Lemma period_filter_decimal s :
  isdecimal U s = true ->
  TaskView.period_filter U limit s
  = if over_limit limit (length s) then Raise ValueError
    else Ok (PyBool (0 <? numeral_value U s)).
Proof.
  intros H. unfold TaskView.period_filter. rewrite H.
  apply isdecimal_spec in H as [Hne Hd]. rewrite (int_str_decimal s Hne Hd).
  by destruct (over_limit limit (length s)).
Qed.

Lemma period_filter_not_decimal s :
  isdecimal U s = false -> TaskView.period_filter U limit s = Ok (PyBool false).
Proof. intros H. unfold TaskView.period_filter. by rewrite H. Qed.

Lemma period_filter_true_iff s :
  TaskView.period_filter U limit s = Ok (PyBool true)
  <-> (s <> [] /\ Forall (unicode_digit U) s /\ 0 < numeral_value U s
       /\ within_limit limit (length s)).
Proof.
  destruct (isdecimal U s) eqn:E.
  - rewrite (period_filter_decimal s E).
    apply isdecimal_spec in E as [Hne Hd].
    destruct (over_limit limit (length s)) eqn:Ho.
    + split; [discriminate|]. intros (_ & _ & _ & Hw).
      apply over_limit_spec in Hw. congruence.
    + apply over_limit_spec in Ho. split.
      * intros [= H%Z.ltb_lt]. done.
      * intros (_ & _ & H%Z.ltb_lt & _). by rewrite H.
  - rewrite (period_filter_not_decimal s E). split; [discriminate|].
    intros (Hne & Hd & _). exfalso.
    assert (isdecimal U s = true); [|congruence]. by apply isdecimal_spec.
Qed.

(** C7, as the code has it: the period filter accepts a text exactly when
    the text is a non-empty string of decimal digits (those of Unicode, as
    [str.isdecimal] tests) whose value is strictly positive and whose
    number of digits is within the interpreter's limit for [int] (4300
    digits unless configured otherwise, none when switched off).  On a
    string of decimal digits beyond that limit [int] raises [ValueError];
    on every other text the filter answers [False].  The text "0" is
    rejected. *)
Theorem period_filter_accepts_positive_numerals :
  (forall s,
      TaskView.period_filter U limit s = Ok (PyBool true)
      <-> (s <> [] /\ Forall (unicode_digit U) s /\ 0 < numeral_value U s
           /\ within_limit limit (length s)))
  /\ (forall s,
         TaskView.period_filter U limit s = Ok (PyBool true)
         \/ TaskView.period_filter U limit s = Ok (PyBool false)
         \/ (TaskView.period_filter U limit s = Raise ValueError
             /\ s <> [] /\ Forall (unicode_digit U) s
             /\ ~ within_limit limit (length s)))
  /\ TaskView.period_filter U limit (codes "0") = Ok (PyBool false).
Proof.
  split; [exact period_filter_true_iff|]. split.
  - intros s. destruct (isdecimal U s) eqn:E.
    + rewrite (period_filter_decimal s E).
      apply isdecimal_spec in E as [Hne Hd].
      destruct (over_limit limit (length s)) eqn:Ho.
      * right. right. repeat split; try done.
        intros Hw%over_limit_spec. congruence.
      * destruct (0 <? _); auto.
    + rewrite (period_filter_not_decimal s E). auto.
  - assert (Hz : isdecimal U (codes "0") = true).
    { apply isdecimal_spec. split; [done|]. repeat constructor.
      exists 0. by rewrite udecimal_latin1. }
    rewrite (period_filter_decimal _ Hz).
    change (over_limit limit (length (codes "0"))) with false. cbv iota.
    change (codes "0") with [48%N]. cbn [numeral_value length].
    unfold digit_of. by rewrite udecimal_latin1.
Qed.
End PeriodFilter.

(** A numeral written with the digit 1 only is positive. *)
Lemma numeral_of_ones_positive n : 0 < numeral_value sample_unicode (repeat 49%N (S n)).
Proof.
  assert (H0 : forall k, 0 <= numeral_value sample_unicode (repeat 49%N k)).
  { induction k as [|k IH]; [done|]. cbn [repeat numeral_value].
    change (digit_of sample_unicode 49) with 1.
    pose proof (Z.pow_nonneg 10 (Z.of_nat (length (repeat 49%N k)))). lia. }
  cbn [repeat numeral_value]. change (digit_of sample_unicode 49) with 1.
  pose proof (Z.pow_pos_nonneg 10 (Z.of_nat (length (repeat 49%N n)))).
  pose proof (H0 n). lia.
Qed.

(** With the limit as the interpreter ships it, a numeral of 4301 digits is
    a non-empty string of decimal digits with a positive value, and the
    filter does not accept it: [int] raises. *)
Lemma period_filter_long_numeral_raises :
  (repeat 49%N 4301 <> []
   /\ Forall (unicode_digit sample_unicode) (repeat 49%N 4301)
   /\ 0 < numeral_value sample_unicode (repeat 49%N 4301))
  /\ TaskView.period_filter sample_unicode default_max_str_digits (repeat 49%N 4301)
     = Raise ValueError.
Proof.
  assert (Hd : Forall (unicode_digit sample_unicode) (repeat 49%N 4301)).
  { apply Forall_forall. intros c Hc%list_elem_of_In%repeat_spec. subst c. by exists 1. }
  split; [split; [discriminate|split; [exact Hd|]]|].
  - apply numeral_of_ones_positive.
  - rewrite period_filter_decimal by (apply isdecimal_spec; split; [discriminate | exact Hd]).
    rewrite repeat_length. reflexivity.
Qed.

Example period_filter_leading_zeros :
  TaskView.period_filter sample_unicode default_max_str_digits (codes "007")
  = Ok (PyBool true).
Proof. reflexivity. Qed.

Example period_filter_signed :
  TaskView.period_filter sample_unicode default_max_str_digits (codes "+7")
  = Ok (PyBool false).
Proof. reflexivity. Qed.

Example period_filter_empty :
  TaskView.period_filter sample_unicode default_max_str_digits [] = Ok (PyBool false).
Proof. reflexivity. Qed.

Example period_filter_arabic_indic :
  TaskView.period_filter sample_unicode default_max_str_digits [1635%N] = Ok (PyBool true).
Proof. reflexivity. Qed.

(** ** The start-date filter *)

Lemma py_int_chars_raises cs e : py_int_chars cs = Raise e -> e = ValueError.
Proof.
  unfold py_int_chars.
  destruct (match strip cs with
            | "-"%char :: r => (true, r)
            | "+"%char :: r => (false, r)
            | _ => (false, strip cs)
            end) as [neg ds].
  destruct ds; [congruence|]. destruct (forallb _ _); congruence.
Qed.

Lemma field_raises n d f e : field n d f = Raise e -> e = ValueError.
Proof.
  unfold field. destruct (group n f); [apply py_int_chars_raises | discriminate].
Qed.

Lemma strptime_raises text fmt e : strptime text fmt = Raise e -> e = ValueError.
Proof.
  unfold strptime.
  destruct (compile _ _); [|congruence].
  destruct (re_match _ _) as [[f [|? ?]]|]; try congruence.
  repeat match goal with
         | |- context [match field ?n ?d ?g with _ => _ end] =>
             destruct (field n d g); try congruence
         end.
  unfold make_datetime. destruct (_ && _); congruence.
Qed.

Lemma start_date_filter_cases text :
  (exists d, TaskView.parse_datetime (PyStr text) = Ok d
             /\ TaskView.start_date_filter text = Ok PyNone)
  \/ (TaskView.parse_datetime (PyStr text) = Raise ValueError
      /\ TaskView.start_date_filter text = Ok (PyBool false)).
Proof.
  unfold TaskView.start_date_filter.
  destruct (TaskView.parse_datetime (PyStr text)) as [d|e] eqn:E.
  - left. eauto.
  - right. simpl in E. apply strptime_raises in E as ->. done.
Qed.

(** C2: on a text that parses in the format the filter returns [None], not
    [True]: no text at all is answered with [True].  A text that does not
    parse, such as "31.02.2024 10:00", is answered with [False]. *)
Theorem start_date_filter_never_true :
  (forall text, TaskView.start_date_filter text <> Ok (PyBool true))
  /\ TaskView.parse_datetime (PyStr "01.01.2024 10:00") = Ok (mk_datetime 2024 1 1 10 0 0)
  /\ TaskView.start_date_filter "01.01.2024 10:00" = Ok PyNone
  /\ truthy PyNone = false
  /\ TaskView.start_date_filter "31.02.2024 10:00" = Ok (PyBool false).
Proof.
  split; [|repeat split; reflexivity].
  intros text. destruct (start_date_filter_cases text) as [(d & _ & ->)|[_ ->]]; discriminate.
Qed.

(** ** Running the handlers *)

Lemma world_eta {Server} (w : world Server) :
  mk_world (server w) (from_user_id w) (dialog_data w) (log w) = w.
Proof. by destruct w. Qed.

Lemma logged_nil {Server} (w : world Server) : logged w [] = w.
Proof. unfold logged. rewrite app_nil_r. apply world_eta. Qed.

Lemma bind_ok {Server A B} (m : M Server A) (k : A -> M Server B) w a w' :
  m w = (Ok a, w') -> bind m k w = k a w'.
Proof. intros H. unfold bind. by rewrite H. Qed.

Lemma call_reply {Server A} e (op : Server -> remote A * Server) w a s' :
  op (server w) = (Reply a, s') ->
  call e op w = (Ok a, on_server (logged w [e]) s').
Proof. intros H. unfold call. by rewrite H. Qed.

Lemma dialog_data_get_some {Server} key v (w : world Server) :
  dialog_data w !! key = Some v -> dialog_data_get key w = (Ok v, w).
Proof. intros H. unfold dialog_data_get. by rewrite H. Qed.

Lemma intent_is_some {Server} d v tag (w : world Server) :
  d !! "intent" = Some v -> intent_is d tag w = (Ok (eq_str v tag), w).
Proof. intros H. unfold intent_is, bind, lift, dict_get, ret. by rewrite H. Qed.

Section Refresh.
Context {Server : Type} (client : Client Server).
Implicit Types (w : world Server) (tid : pyval).

Lemma load_task_info_no_order w tid t s1 :
  dialog_data w !! "task_id" = Some tid ->
  get_task_info client tid (from_user_id w) (server w) = (Reply t, s1) ->
  order_id t = None ->
  TaskView.load_task_info client w
  = (Ok tt, mk_world s1 (from_user_id w)
              (<["executors" := PyNone]> (<["task" := PyTaskInfo t]> (dialog_data w)))
              (log w ++ [GetTaskInfo tid (from_user_id w)])).
Proof.
  intros Hid Ht Ho. unfold TaskView.load_task_info.
  unfold bind at 1. unfold event_from_user_id at 1.
  rewrite (bind_ok _ _ _ _ _ (dialog_data_get_some _ _ _ Hid)).
  rewrite (bind_ok _ _ _ _ _ (call_reply _ _ _ _ _ Ht)).
  rewrite Ho. reflexivity.
Qed.

Lemma load_task_info_order w tid t s1 oid od s2 :
  dialog_data w !! "task_id" = Some tid ->
  get_task_info client tid (from_user_id w) (server w) = (Reply t, s1) ->
  order_id t = Some oid ->
  get_order_info client oid (from_user_id w) s1 = (Reply od, s2) ->
  TaskView.load_task_info client w
  = (Ok tt, mk_world s2 (from_user_id w)
              (<["executors" := PyUsers (users od)]>
                 (<["task" := PyTaskInfo t]> (dialog_data w)))
              (log w ++ [GetTaskInfo tid (from_user_id w);
                         GetOrderInfo oid (from_user_id w)])).
Proof.
  intros Hid Ht Ho Hod. unfold TaskView.load_task_info.
  unfold bind at 1. unfold event_from_user_id at 1.
  rewrite (bind_ok _ _ _ _ _ (dialog_data_get_some _ _ _ Hid)).
  rewrite (bind_ok _ _ _ _ _ (call_reply _ _ _ _ _ Ht)).
  rewrite Ho. unfold bind, dialog_data_set, call. simpl.
  rewrite Hod. simpl. by rewrite <- app_assoc.
Qed.

(** A refresh that returns has received every answer it asked for. *)
Lemma load_task_info_inv w w1 :
  TaskView.load_task_info client w = (Ok tt, w1) ->
  exists tid t s1,
    dialog_data w !! "task_id" = Some tid
    /\ get_task_info client tid (from_user_id w) (server w) = (Reply t, s1)
    /\ (order_id t = None
        \/ exists oid od s2,
             order_id t = Some oid
             /\ get_order_info client oid (from_user_id w) s1 = (Reply od, s2)).
Proof.
  unfold TaskView.load_task_info, bind, event_from_user_id, dialog_data_get, call,
    dialog_data_set. simpl.
  destruct (dialog_data w !! "task_id") as [tid|] eqn:Hid; [|discriminate].
  destruct (get_task_info client tid (from_user_id w) (server w)) as [[t|] s1] eqn:Ht;
    [|discriminate].
  intros H. exists tid, t, s1. split; [done|]. split; [done|].
  destruct (order_id t) as [oid|] eqn:Ho; [|by left]. right. simpl in H.
  destruct (get_order_info client oid (from_user_id w) s1) as [[od|] s2] eqn:Hod;
    [|discriminate].
  by exists oid, od, s2.
Qed.
End Refresh.

(** [on_start] leaves the task id of its start data in the dialog data,
    where the dispatcher and every later refresh read it. *)
Lemma on_start_stores_task_id {Server} (client : Client Server)
      (start_data : gmap string pyval) (tid : pyval) (w w1 : world Server) :
  start_data !! "input" = Some (TaskViewDialogStartData tid) ->
  TaskView.on_start client start_data w = (Ok tt, w1) ->
  dialog_data w1 !! "task_id" = Some tid.
Proof.
  intros Hin. unfold TaskView.on_start, bind at 1 2 3, lift, dict_get, dialog_data_set.
  rewrite Hin. simpl. intros Hrun.
  destruct (load_task_info_inv client _ w1 Hrun) as (tid' & t & s1 & Hid & Ht & Hord).
  simpl in Hid, Ht. rewrite lookup_insert_eq in Hid. injection Hid as <-.
  destruct Hord as [Ho | (oid & od & s2 & Ho & Hod)].
  - rewrite (load_task_info_no_order client _ tid t s1) in Hrun;
      [|by apply lookup_insert_eq|done|done].
    injection Hrun as <-. simpl.
    do 2 (rewrite lookup_insert_ne by done). apply lookup_insert_eq.
  - rewrite (load_task_info_order client _ tid t s1 oid od s2) in Hrun;
      [|by apply lookup_insert_eq|done|done|done].
    injection Hrun as <-. simpl.
    do 2 (rewrite lookup_insert_ne by done). apply lookup_insert_eq.
Qed.

Example on_start_then_viewing :
  TaskView.on_start Memory.client {[ "input" := TaskViewDialogStartData (PyInt 1) ]}
    (mk_world Memory.home 42 ∅ [])
  = (Ok tt, Memory.viewing 1).
Proof. reflexivity. Qed.

Section RefreshProperties.
Context {Server : Type} (client : Client Server).
Implicit Types (w : world Server) (tid : pyval).

Lemma refreshed_twice (dd : gmap string pyval) (a b : pyval) :
  <["executors" := b]> (<["task" := a]> (<["executors" := b]> (<["task" := a]> dd)))
  = <["executors" := b]> (<["task" := a]> dd).
Proof.
  apply map_eq. intros k. rewrite !lookup_insert.
  repeat case_decide; congruence.
Qed.

Lemma refreshed_task_id (dd : gmap string pyval) (a b : pyval) :
  <["executors" := b]> (<["task" := a]> dd) !! "task_id" = dd !! "task_id".
Proof. by rewrite !lookup_insert_ne. Qed.

(** A second refresh, run against any server state [s'] that answers as
    the first one was answered, stores what is already there. *)
Lemma refresh_again w w1 tid s' :
  dialog_data w !! "task_id" = Some tid ->
  TaskView.load_task_info client w = (Ok tt, w1) ->
  fetched client tid (from_user_id w) s' = fetched client tid (from_user_id w) (server w) ->
  exists w2,
    TaskView.load_task_info client (on_server w1 s') = (Ok tt, w2)
    /\ dialog_data w2 = dialog_data w1.
Proof.
  intros Hid Hrun Hsame.
  destruct (load_task_info_inv client w w1 Hrun) as (tid' & t & s1 & Hid' & Ht & Hord).
  assert (tid' = tid) as -> by congruence.
  unfold fetched in Hsame. rewrite Ht in Hsame.
  destruct Hord as [Ho | (oid & od & s2 & Ho & Hod)].
  - rewrite (load_task_info_no_order client w tid t s1 Hid Ht Ho) in Hrun.
    injection Hrun as <-. rewrite Ho in Hsame.
    destruct (get_task_info client tid (from_user_id w) s') as [[t'|] s1'] eqn:Ht';
      [|discriminate].
    destruct (order_id t') as [oid'|] eqn:Ho'.
    { destruct (get_order_info client oid' (from_user_id w) s1') as [[?|] ?];
        discriminate. }
    injection Hsame as ->.
    eexists. split.
    + apply (load_task_info_no_order client _ tid t s1'); simpl; try done.
      by rewrite refreshed_task_id.
    + simpl. apply refreshed_twice.
  - rewrite (load_task_info_order client w tid t s1 oid od s2 Hid Ht Ho Hod) in Hrun.
    injection Hrun as <-. rewrite Ho, Hod in Hsame.
    destruct (get_task_info client tid (from_user_id w) s') as [[t'|] s1'] eqn:Ht';
      [|discriminate].
    destruct (order_id t') as [oid'|] eqn:Ho'; [|discriminate].
    destruct (get_order_info client oid' (from_user_id w) s1') as [[od'|] s2'] eqn:Hod';
      [|discriminate].
    injection Hsame as -> ->.
    assert (oid' = oid) as -> by congruence.
    eexists. split.
    + apply (load_task_info_order client _ tid t s1' oid od s2'); simpl; try done.
      by rewrite refreshed_task_id.
    + simpl. apply refreshed_twice.
Qed.

(** C9: a refresh repeated straight after a refresh, the remote side
    answering the second time as it did the first, leaves the dialog data
    (task snapshot and executor list included) as the first refresh left
    it. *)
Theorem refresh_idempotent w w1 tid :
  dialog_data w !! "task_id" = Some tid ->
  TaskView.load_task_info client w = (Ok tt, w1) ->
  fetched client tid (from_user_id w) (server w1)
  = fetched client tid (from_user_id w) (server w) ->
  exists w2,
    TaskView.load_task_info client w1 = (Ok tt, w2)
    /\ dialog_data w2 = dialog_data w1
    /\ dialog_data w2 !! "task" = dialog_data w1 !! "task"
    /\ dialog_data w2 !! "executors" = dialog_data w1 !! "executors".
Proof.
  intros Hid Hrun Hsame.
  destruct (refresh_again w w1 tid (server w1) Hid Hrun Hsame) as (w2 & H2 & Hdd).
  exists w2. unfold on_server in H2. rewrite world_eta in H2.
  rewrite Hdd. done.
Qed.

(** C10: after a refresh the stored executor list is [None] exactly when
    the fetched task has no order id; in that case the task fetch is the
    only remote call, and otherwise the list is the users of the order
    fetched for that order id. *)
Theorem refresh_executors w w1 :
  TaskView.load_task_info client w = (Ok tt, w1) ->
  exists tid t s1,
    dialog_data w !! "task_id" = Some tid
    /\ get_task_info client tid (from_user_id w) (server w) = (Reply t, s1)
    /\ dialog_data w1 !! "task" = Some (PyTaskInfo t)
    /\ (dialog_data w1 !! "executors" = Some PyNone <-> order_id t = None)
    /\ (order_id t = None ->
        log w1 = log w ++ [GetTaskInfo tid (from_user_id w)] /\ server w1 = s1)
    /\ (forall oid, order_id t = Some oid ->
        exists od s2,
          get_order_info client oid (from_user_id w) s1 = (Reply od, s2)
          /\ dialog_data w1 !! "executors" = Some (PyUsers (users od))
          /\ log w1 = log w ++ [GetTaskInfo tid (from_user_id w);
                                GetOrderInfo oid (from_user_id w)]
          /\ server w1 = s2).
Proof.
  intros Hrun.
  destruct (load_task_info_inv client w w1 Hrun) as (tid & t & s1 & Hid & Ht & Hord).
  exists tid, t, s1. split; [done|]. split; [done|].
  destruct Hord as [Ho | (oid & od & s2 & Ho & Hod)].
  - rewrite (load_task_info_no_order client w tid t s1 Hid Ht Ho) in Hrun.
    injection Hrun as <-. simpl.
    split; [by rewrite lookup_insert_ne, lookup_insert_eq|].
    split; [by rewrite lookup_insert_eq|].
    split; [done|]. intros oid Hoid. congruence.
  - rewrite (load_task_info_order client w tid t s1 oid od s2 Hid Ht Ho Hod) in Hrun.
    injection Hrun as <-. simpl.
    split; [by rewrite lookup_insert_ne, lookup_insert_eq|].
    split; [rewrite lookup_insert_eq; split; intros; congruence|].
    split; [intros; congruence|].
    intros oid' Hoid. assert (oid' = oid) as -> by congruence.
    exists od, s2. by rewrite lookup_insert_eq.
Qed.
End RefreshProperties.

Lemma refresh_idempotent_witness :
  exists w2,
    TaskView.load_task_info Memory.client (Memory.viewing 1) = (Ok tt, w2)
    /\ dialog_data w2 = dialog_data (Memory.viewing 1)
    /\ dialog_data w2 !! "task" = dialog_data (Memory.viewing 1) !! "task"
    /\ dialog_data w2 !! "executors" = dialog_data (Memory.viewing 1) !! "executors".
Proof.
  apply (refresh_idempotent Memory.client (Memory.session 1) (Memory.viewing 1) (PyInt 1));
    reflexivity.
Defined.

Lemma refresh_executors_witness :
  exists tid t s1,
    dialog_data (Memory.session 1) !! "task_id" = Some tid
    /\ get_task_info Memory.client tid 42 Memory.home = (Reply t, s1)
    /\ dialog_data (Memory.viewing 1) !! "task" = Some (PyTaskInfo t)
    /\ (dialog_data (Memory.viewing 1) !! "executors" = Some PyNone <-> order_id t = None)
    /\ (order_id t = None ->
        log (Memory.viewing 1) = [] ++ [GetTaskInfo tid 42]
        /\ server (Memory.viewing 1) = s1)
    /\ (forall oid, order_id t = Some oid ->
        exists od s2,
          get_order_info Memory.client oid 42 s1 = (Reply od, s2)
          /\ dialog_data (Memory.viewing 1) !! "executors" = Some (PyUsers (users od))
          /\ log (Memory.viewing 1) = [] ++ [GetTaskInfo tid 42; GetOrderInfo oid 42]
          /\ server (Memory.viewing 1) = s2).
Proof.
  apply (refresh_executors Memory.client (Memory.session 1) (Memory.viewing 1)).
  reflexivity.
Defined.

(** ** The result dispatchers *)

Ltac run_dispatch :=
  unfold TaskView.on_process_result, TaskView.dispatch, Roomless.on_process_result,
    bind, intent_is, lift, dict_get, ret, dialog_data_get, event_from_user_id, emit, call.

Section TaskViewDispatcher.
Context {Server : Type} (client : Client Server).
Implicit Types (w : world Server) (d : gmap string pyval) (tid result : pyval).

(** C3: on a result for intent [delete], a true result makes one remote
    delete call with the task id of the session and then ends the dialog,
    with no refresh and no screen shown; a false result, or [None], makes
    no remote call and shows the current screen again. *)
Theorem delete_result w d tid result :
  dialog_data w !! "task_id" = Some tid ->
  d !! "intent" = Some (PyStr "delete") ->
  (result = PyBool true ->
   forall s', delete_task client tid (from_user_id w) (server w) = (Reply tt, s') ->
     TaskView.on_process_result client (Dict d) result w
     = (Ok tt, on_server (logged w [DeleteTask tid (from_user_id w); ManagerDone SEND]) s'))
  /\ (result = PyBool false \/ result = PyNone ->
      TaskView.on_process_result client (Dict d) result w
      = (Ok tt, logged w [ManagerShow SEND])).
Proof.
  intros Hid Hint. split.
  - intros -> s' Hdel. run_dispatch. rewrite Hid, Hint. simpl. rewrite Hdel. simpl.
    unfold on_server, logged. simpl. by rewrite <- app_assoc.
  - intros [-> | ->]; run_dispatch; rewrite Hid, Hint; reflexivity.
Qed.
End TaskViewDispatcher.

Lemma delete_result_witness :
  TaskView.on_process_result Memory.client (Dict {[ "intent" := PyStr "delete" ]})
    (PyBool true) (Memory.viewing 2)
  = (Ok tt,
     on_server (logged (Memory.viewing 2) [DeleteTask (PyInt 2) 42; ManagerDone SEND])
       (snd (Memory.m_delete_task (PyInt 2) 42 Memory.home)))
  /\ TaskView.on_process_result Memory.client (Dict {[ "intent" := PyStr "delete" ]})
       (PyBool false) (Memory.viewing 2)
     = (Ok tt, logged (Memory.viewing 2) [ManagerShow SEND]).
Proof.
  pose proof (delete_result Memory.client (Memory.viewing 2)
                {[ "intent" := PyStr "delete" ]} (PyInt 2)) as H.
  split.
  - apply (H (PyBool true)); reflexivity.
  - apply (H (PyBool false)); [reflexivity | reflexivity | by left].
Defined.

Section Edits.
Context {Server : Type} (client : Client Server).
Implicit Types (w : world Server) (d : gmap string pyval) (tid result : pyval).

(** A refresh that is answered succeeds and stores the answers. *)
Lemma load_task_info_fetched w tid t o :
  dialog_data w !! "task_id" = Some tid ->
  fetched client tid (from_user_id w) (server w) = Some (t, o) ->
  exists s',
    TaskView.load_task_info client w
    = (Ok tt, mk_world s' (from_user_id w)
                (<["executors" := executors_of o]>
                   (<["task" := PyTaskInfo t]> (dialog_data w)))
                (log w ++ GetTaskInfo tid (from_user_id w) :: order_call t (from_user_id w))).
Proof.
  intros Hid Hf. unfold fetched in Hf.
  destruct (get_task_info client tid (from_user_id w) (server w)) as [[t'|] s1] eqn:Ht;
    [|discriminate].
  unfold order_call.
  destruct (order_id t') as [oid|] eqn:Ho.
  - destruct (get_order_info client oid (from_user_id w) s1) as [[od|] s2] eqn:Hod;
      [|discriminate].
    injection Hf as -> <-. rewrite Ho. exists s2.
    by rewrite (load_task_info_order client w tid t s1 oid od s2).
  - injection Hf as -> <-. rewrite Ho. exists s1.
    by rewrite (load_task_info_no_order client w tid t s1).
Qed.

Lemma edit_run w tid body s1 t o :
  dialog_data w !! "task_id" = Some tid ->
  modify_task client body (from_user_id w) (server w) = (Reply tt, s1) ->
  fetched client tid (from_user_id w) s1 = Some (t, o) ->
  exists s',
    bind (bind (call (ModifyTask body (from_user_id w))
                     (modify_task client body (from_user_id w)))
               (fun _ => bind (TaskView.load_task_info client) (fun _ => ret FellThrough)))
         (fun f => match f with
                   | Returned => ret tt
                   | FellThrough => emit (ManagerShow SEND)
                   end) w
    = (Ok tt, mk_world s' (from_user_id w)
                (<["executors" := executors_of o]>
                   (<["task" := PyTaskInfo t]> (dialog_data w)))
                (log w ++ [ModifyTask body (from_user_id w);
                           GetTaskInfo tid (from_user_id w)]
                       ++ order_call t (from_user_id w) ++ [ManagerShow SEND])).
Proof.
  intros Hid Hmod Hf.
  destruct (load_task_info_fetched
              (on_server (logged w [ModifyTask body (from_user_id w)]) s1) tid t o)
    as (s' & Hload); [done | done |].
  exists s'. unfold bind at 1 2. rewrite (call_reply _ _ _ _ _ Hmod).
  unfold bind at 1. rewrite Hload. unfold bind, ret, emit. simpl.
  f_equal. f_equal. rewrite <- !app_assoc. reflexivity.
Qed.
End Edits.

Lemma bind_bind_ok {Server A B C} (m : M Server A) (f : A -> M Server B)
      (k : B -> M Server C) w a w' :
  m w = (Ok a, w') -> bind (bind m f) k w = bind (f a) k w'.
Proof. intros H. unfold bind. by rewrite H. Qed.

Lemma is_none_false v : v <> PyNone -> is_none v = false.
Proof. by destruct v. Qed.

(** Step over the tests [start_data["intent"] == tag] of the chain. *)
Ltac skip_tests Hint :=
  repeat (rewrite (bind_bind_ok _ _ _ _ _ _ (intent_is_some _ _ _ _ Hint));
          cbn [eq_str String.eqb Ascii.eqb Bool.eqb]; cbv beta iota).

Section EditProperties.
Context {Server : Type} (client : Client Server).
Implicit Types (w : world Server) (d : gmap string pyval) (tid result : pyval).

(** C5, as the code has it: for each edit intent and a result other than
    [None] (for [edit_start_date], a text that parses in the date format),
    when the remote side accepts the change and answers the refresh, the
    dispatcher makes the remote change, then fetches the task (and its
    order) from the changed server and stores the answers, and only then
    shows the screen. *)
Theorem edit_mutates_then_refreshes w d tag tid result body s1 t o :
  dialog_data w !! "task_id" = Some tid ->
  d !! "intent" = Some (PyStr tag) ->
  In tag edit_intents ->
  result <> PyNone ->
  edit_body tag tid result = Some body ->
  modify_task client body (from_user_id w) (server w) = (Reply tt, s1) ->
  fetched client tid (from_user_id w) s1 = Some (t, o) ->
  exists s',
    TaskView.on_process_result client (Dict d) result w
    = (Ok tt, mk_world s' (from_user_id w)
                (<["executors" := executors_of o]>
                   (<["task" := PyTaskInfo t]> (dialog_data w)))
                (log w ++ [ModifyTask body (from_user_id w);
                           GetTaskInfo tid (from_user_id w)]
                       ++ order_call t (from_user_id w) ++ [ManagerShow SEND])).
Proof.
  intros Hid Hint Htag Hres Hbody Hmod Hf.
  unfold TaskView.on_process_result.
  rewrite (bind_ok _ _ _ _ _ (dialog_data_get_some _ _ _ Hid)).
  unfold bind at 1. unfold event_from_user_id at 1.
  unfold TaskView.dispatch.
  simpl in Htag.
  destruct Htag as [<- | [<- | [<- | [<- | []]]]]; skip_tests Hint;
    rewrite (is_none_false _ Hres); cbn [negb]; cbv beta iota zeta.
  - injection Hbody as <-. by apply (edit_run client w tid _ s1 t o).
  - injection Hbody as <-. by apply (edit_run client w tid _ s1 t o).
  - unfold edit_body in Hbody. cbn [String.eqb Ascii.eqb Bool.eqb] in Hbody.
    destruct (TaskView.parse_datetime result) as [dt|e] eqn:Hp; [|discriminate].
    injection Hbody as <-.
    rewrite (bind_bind_ok _ _ _ w dt w eq_refl).
    by apply (edit_run client w tid _ s1 t o).
  - injection Hbody as <-. by apply (edit_run client w tid _ s1 t o).
Qed.
End EditProperties.

Lemma edit_mutates_then_refreshes_witness :
  exists s',
    TaskView.on_process_result Memory.client (Dict {[ "intent" := PyStr "edit_name" ]})
      (PyStr "Shopping") (Memory.viewing 1)
    = (Ok tt,
       mk_world s' 42
         (<["executors" := PyUsers [Memory.alice; Memory.bob]]>
            (<["task" := PyTaskInfo
                           (mk_task "Shopping" None (mk_datetime 2024 1 1 10 0 0) 7 (Some 3))]>
               (dialog_data (Memory.viewing 1))))
         (log (Memory.viewing 1)
          ++ [ModifyTask (mk_body (PyInt 1) (Some (PyStr "Shopping")) None None None) 42;
              GetTaskInfo (PyInt 1) 42]
          ++ [GetOrderInfo 3 42] ++ [ManagerShow SEND])).
Proof.
  apply (edit_mutates_then_refreshes Memory.client (Memory.viewing 1)
           {[ "intent" := PyStr "edit_name" ]} "edit_name" (PyInt 1) (PyStr "Shopping")
           (mk_body (PyInt 1) (Some (PyStr "Shopping")) None None None)
           (snd (Memory.m_modify_task
                   (mk_body (PyInt 1) (Some (PyStr "Shopping")) None None None) 42 Memory.home))
           (mk_task "Shopping" None (mk_datetime 2024 1 1 10 0 0) 7 (Some 3))
           (Some (mk_order [Memory.alice; Memory.bob])));
    try reflexivity.
  - simpl. tauto.
  - discriminate.
Defined.

(** A result for [edit_start_date] that does not parse stops the dispatcher
    before any remote call: nothing is changed and nothing is fetched. *)
Lemma edit_start_date_unparsable_raises :
  PyStr "tomorrow" <> PyNone
  /\ TaskView.on_process_result Memory.client
       (Dict {[ "intent" := PyStr "edit_start_date" ]}) (PyStr "tomorrow") (Memory.viewing 1)
     = (Raise ValueError, Memory.viewing 1).
Proof. split; [discriminate | reflexivity]. Qed.

Section PeriodProperties.
Context {Server : Type} (client : Client Server).
Implicit Types (w : world Server) (d : gmap string pyval) (tid result : pyval).


End PeriodProperties.

Section PeriodSent.
Context {Server : Type} (client : Client Server) (U : UnicodeData) (limit : Z).
Implicit Types (w : world Server) (d : gmap string pyval) (tid : pyval) (s : string).




End PeriodSent.


(** ** Unrecognised intents *)

Lemma eq_str_false v tag : v <> PyStr tag -> eq_str v tag = false.
Proof.
  destruct v; try done. simpl. intros H.
  apply String.eqb_neq. congruence.
Qed.

Ltac skip_unknown Hint Hv :=
  repeat (rewrite (bind_bind_ok _ _ _ _ _ _ (intent_is_some _ _ _ _ Hint))
          || rewrite (bind_ok _ _ _ _ _ (intent_is_some _ _ _ _ Hint));
          rewrite eq_str_false by (apply Hv; simpl; tauto);
          cbv beta iota).

Section Unrecognised.
Context {Server : Type} (client : Client Server).
Implicit Types (w : world Server) (d : gmap string pyval) (result : pyval).

(** C1, as the code has it: when the start payload is not a dict, or is a
    dict whose intent tag is not one the dispatcher knows, the dispatcher
    returns normally, makes no remote call, and leaves the server and the
    dialog data as they were; the task view then shows its screen again.
    (The task view reads the task id of its session first.) *)
Theorem unrecognised_intent_is_noop (which : dispatcher) sd result w :
  (which = TaskViewDispatcher -> is_Some (dialog_data w !! "task_id")) ->
  unrecognised (known_intents which) sd ->
  run_dispatcher client which sd result w = (Ok tt, logged w (redisplay which sd))
  /\ Forall (fun e => is_remote e = false) (redisplay which sd).
Proof.
  intros Hid Hun. split.
  2:{ destruct which, sd; simpl; by repeat constructor. }
  destruct sd as [v | d]; simpl in Hun.
  - destruct which; simpl; by rewrite logged_nil.
  - destruct Hun as (v & Hint & Hv). destruct which; simpl in *.
    + destruct (Hid eq_refl) as [tid Htid].
      unfold TaskView.on_process_result.
      rewrite (bind_ok _ _ _ _ _ (dialog_data_get_some _ _ _ Htid)).
      unfold bind at 1. unfold event_from_user_id at 1.
      unfold TaskView.dispatch. skip_unknown Hint Hv.
      reflexivity.
    + unfold Roomless.on_process_result. skip_unknown Hint Hv.
      unfold ret. by rewrite logged_nil.
Qed.

(** On a dict without the key neither dispatcher gets as far as a remote
    call or a call to the dialog manager: the world is as it was. *)
Lemma missing_intent_world_unchanged (which : dispatcher) d result w :
  d !! "intent" = None ->
  snd (run_dispatcher client which (Dict d) result w) = w.
Proof.
  intros Hint. destruct which; simpl; run_dispatch; rewrite Hint.
  - by destruct (dialog_data w !! "task_id").
  - done.
Qed.
End Unrecognised.

Lemma unrecognised_intent_is_noop_witness :
  (run_dispatcher Memory.client TaskViewDispatcher
     (Dict {[ "intent" := PyStr "invitations" ]}) (PyStr "x") (Memory.viewing 1)
   = (Ok tt, logged (Memory.viewing 1) [ManagerShow SEND])
   /\ Forall (fun e => is_remote e = false) [ManagerShow SEND])
  /\ (run_dispatcher Memory.client RoomlessDispatcher
        (NotDict PyNone) (PyStr "x") (Memory.viewing 1)
      = (Ok tt, logged (Memory.viewing 1) [])
      /\ Forall (fun e => is_remote e = false) []).
Proof.
  split.
  - apply (unrecognised_intent_is_noop Memory.client TaskViewDispatcher
             (Dict {[ "intent" := PyStr "invitations" ]}) (PyStr "x") (Memory.viewing 1)).
    + intros _. by eexists.
    + exists (PyStr "invitations"). split; [reflexivity|].
      intros tag Htag. simpl in Htag.
      destruct Htag as [<- | [<- | [<- | [<- | [<- | []]]]]]; discriminate.
  - apply (unrecognised_intent_is_noop Memory.client RoomlessDispatcher
             (NotDict PyNone) (PyStr "x") (Memory.viewing 1)).
    + discriminate.
    + exact I.
Defined.

(** A dict payload without the ["intent"] key makes both dispatchers raise
    [KeyError]. *)
Lemma missing_intent_raises_KeyError :
  fst (TaskView.on_process_result Memory.client (Dict {[ "input" := PyNone ]}) PyNone
         (Memory.viewing 1))
  = Raise (KeyError "intent")
  /\ fst (Roomless.on_process_result Memory.client (Dict {[ "input" := PyNone ]}) PyNone
            (Memory.viewing 1))
     = Raise (KeyError "intent").
Proof. split; reflexivity. Qed.

(** ** Creating a room *)

Section RoomlessDispatcher.
Context {Server : Type} (client : Client Server).
Implicit Types (w : world Server) (d : gmap string pyval) (result : pyval).

(** C4: on a result for intent [create_room], a text result creates the
    remote room with that text as name for the calling user and then
    starts the room view with the returned room id and the name, resetting
    the navigation stack; the result [None] changes nothing remotely and
    shows the current screen again. *)
Theorem create_room_result w d result :
  d !! "intent" = Some (PyStr "create_room") ->
  (forall name room s',
      result = PyStr name ->
      create_room client (PyStr name) (from_user_id w) (server w) = (Reply room, s') ->
      Roomless.on_process_result client (Dict d) result w
      = (Ok tt,
         on_server
           (logged w [CreateRoom (PyStr name) (from_user_id w);
                      ManagerStart RoomSG_main
                        (Dict {[ "input" := RoomDialogStartData (PyInt room) (PyStr name) ]})
                        RESET_STACK])
           s'))
  /\ (result = PyNone ->
      Roomless.on_process_result client (Dict d) result w
      = (Ok tt, logged w [ManagerShow SEND])).
Proof.
  intros Hint. split.
  - intros name room s' -> Hroom.
    unfold Roomless.on_process_result.
    rewrite (bind_ok _ _ _ _ _ (intent_is_some _ _ _ _ Hint)).
    cbn [eq_str String.eqb Ascii.eqb Bool.eqb is_none negb]. cbv beta iota.
    unfold bind at 1. unfold event_from_user_id at 1.
    rewrite (bind_ok _ _ _ _ _ (call_reply _ _ _ _ _ Hroom)).
    unfold emit, on_server, logged. simpl. by rewrite <- app_assoc.
  - intros ->. unfold Roomless.on_process_result.
    rewrite (bind_ok _ _ _ _ _ (intent_is_some _ _ _ _ Hint)).
    reflexivity.
Qed.
End RoomlessDispatcher.

Lemma create_room_result_witness :
  Roomless.on_process_result Memory.client (Dict {[ "intent" := PyStr "create_room" ]})
    (PyStr "Team Alpha") welcome
  = (Ok tt,
     on_server
       (logged welcome
          [CreateRoom (PyStr "Team Alpha") 7;
           ManagerStart RoomSG_main
             (Dict {[ "input" := RoomDialogStartData (PyInt 100) (PyStr "Team Alpha") ]})
             RESET_STACK])
       (snd (Memory.m_create_room (PyStr "Team Alpha") 7 Memory.home)))
  /\ Roomless.on_process_result Memory.client (Dict {[ "intent" := PyStr "create_room" ]})
       PyNone welcome
     = (Ok tt, logged welcome [ManagerShow SEND]).
Proof.
  pose proof (create_room_result Memory.client welcome
                {[ "intent" := PyStr "create_room" ]}) as H.
  split.
  - apply (H (PyStr "Team Alpha")); reflexivity.
  - apply (H PyNone); reflexivity.
Defined.

(** ** The /start message *)

Section Start.
Context {Server : Type} (client : Client Server).
Implicit Types (w : world Server).

(** C8: whatever the remote side answers to the user creation, the
    handler goes on to fetch the room; a failed room fetch starts the
    roomless welcome dialog with a reset stack and an answered one starts
    the room view; the handler returns normally and starts exactly one
    dialog. *)
Theorem start_message_routes (uid : Z) w :
  let '(registration, s1) := create_user client uid (server w) in
  let '(room, s2) := get_room_info client uid s1 in
  StartMessage.start_message_handler client uid w
  = (Ok tt, on_server (logged w [CreateUser uid; GetRoomInfo uid; routed room]) s2)
  /\ List.filter is_start [CreateUser uid; GetRoomInfo uid; routed room] = [routed room]
  /\ routed RemoteError = ManagerStart RoomlessSG_welcome (NotDict PyNone) RESET_STACK.
Proof.
  destruct (create_user client uid (server w)) as [registration s1] eqn:Hreg.
  destruct (get_room_info client uid s1) as [room s2] eqn:Hroom.
  split; [|split].
  - unfold StartMessage.start_message_handler, bind, try_except_RuntimeError, call, emit,
      ret. rewrite Hreg.
    destruct registration as [[]|]; simpl; rewrite Hroom;
      destruct room as [room|]; simpl; unfold on_server, logged; simpl;
      by rewrite <- !app_assoc.
  - by destruct room.
  - reflexivity.
Qed.
End Start.

Example start_known_user_without_room :
  StartMessage.start_message_handler Memory.client 42 welcome
  = (Ok tt, logged welcome [CreateUser 42; GetRoomInfo 42;
                            ManagerStart RoomlessSG_welcome (NotDict PyNone) RESET_STACK]).
Proof. reflexivity. Qed.

(** ** The dispatcher of the task view, case by case *)

Section Table.
Context {Server : Type} (client : Client Server).
Implicit Types (w : world Server) (d : gmap string pyval) (v tid result : pyval).

Lemma edit_branch body tid uid w :
  bind (bind (call (ModifyTask body uid) (modify_task client body uid))
             (fun _ => bind (TaskView.load_task_info client) (fun _ => ret FellThrough)))
       (fun f => match f with
                 | Returned => ret tt
                 | FellThrough => emit (ManagerShow SEND)
                 end) w
  = run_plan client (PlanEdit body) tid uid w.
Proof.
  unfold run_plan, bind.
  destruct (call _ _ w) as [[[]|e] w1]; [|done].
  by destruct (TaskView.load_task_info client w1) as [[[]|e] w2].
Qed.

(** With the task id stored and an intent in the payload, the chain of
    tests does what the table says. *)
Lemma dispatch_table w d v tid result :
  dialog_data w !! "task_id" = Some tid ->
  d !! "intent" = Some v ->
  TaskView.on_process_result client (Dict d) result w
  = run_plan client (table v tid result) tid (from_user_id w) w.
Proof.
  intros Hid Hint. unfold TaskView.on_process_result.
  rewrite (bind_ok _ _ _ _ _ (dialog_data_get_some _ _ _ Hid)).
  unfold bind at 1. unfold event_from_user_id at 1.
  unfold TaskView.dispatch, table.
  rewrite (bind_bind_ok _ _ _ _ _ _ (intent_is_some _ _ _ _ Hint)).
  destruct (eq_str v "delete").
  { destruct (truthy result); [|reflexivity].
    unfold run_plan, bind. destruct (call _ _ w) as [[[]|e] w1]; reflexivity. }
  rewrite (bind_bind_ok _ _ _ _ _ _ (intent_is_some _ _ _ _ Hint)).
  destruct (eq_str v "edit_name").
  { destruct (is_none result); [reflexivity | apply edit_branch]. }
  rewrite (bind_bind_ok _ _ _ _ _ _ (intent_is_some _ _ _ _ Hint)).
  destruct (eq_str v "edit_description").
  { destruct (is_none result); [reflexivity | apply edit_branch]. }
  rewrite (bind_bind_ok _ _ _ _ _ _ (intent_is_some _ _ _ _ Hint)).
  destruct (eq_str v "edit_start_date").
  { destruct (is_none result); [reflexivity|]. cbn [negb].
    destruct (TaskView.parse_datetime result) as [dt|e] eqn:Hp.
    - rewrite (bind_bind_ok _ _ _ w dt w eq_refl). apply edit_branch.
    - reflexivity. }
  rewrite (bind_bind_ok _ _ _ _ _ _ (intent_is_some _ _ _ _ Hint)).
  destruct (eq_str v "edit_period").
  { destruct (is_none result); [reflexivity | apply edit_branch]. }
  by destruct (is_none result).
Qed.
End Table.

Section Frames.
Context {Server : Type} (client : Client Server).
Implicit Types (w : world Server) (d : gmap string pyval) (v tid result : pyval).

(** Whatever the remote side answers, a refresh keeps the user and the task
    id, removes no key of the dialog data, and only fetches. *)
Lemma load_task_info_frame w :
  let w' := snd (TaskView.load_task_info client w) in
  from_user_id w' = from_user_id w
  /\ dialog_data w' !! "task_id" = dialog_data w !! "task_id"
  /\ (forall k, is_Some (dialog_data w !! k) -> is_Some (dialog_data w' !! k))
  /\ exists fs, log w' = log w ++ fs /\ Forall (fun e => is_fetch e = true) fs.
Proof.
  unfold TaskView.load_task_info, bind, event_from_user_id, dialog_data_get, call,
    dialog_data_set. simpl.
  destruct (dialog_data w !! "task_id") as [tid|] eqn:Hid; simpl.
  2:{ repeat split; [done..|]. exists []. by rewrite app_nil_r. }
  destruct (get_task_info client tid (from_user_id w) (server w)) as [[t|] s1]; simpl.
  2:{ repeat split; [done..|]. eexists. split; [reflexivity | by repeat constructor]. }
  assert (Hkeep : forall (a b : pyval) k,
             is_Some (dialog_data w !! k) ->
             is_Some (<["executors" := b]> (<["task" := a]> (dialog_data w)) !! k)).
  { intros a b k Hk. rewrite !lookup_insert. by repeat case_decide. }
  destruct (order_id t) as [oid|]; simpl.
  2:{ split; [done|]. split; [by rewrite !lookup_insert_ne|]. split; [apply Hkeep|].
      eexists. split; [reflexivity | by repeat constructor]. }
  destruct (get_order_info client oid (from_user_id w) s1) as [[od|] s2]; simpl.
  - split; [done|]. split; [by rewrite !lookup_insert_ne|]. split; [apply Hkeep|].
    rewrite <- app_assoc. eexists. split; [reflexivity | by repeat constructor].
  - split; [done|]. split; [by rewrite lookup_insert_ne|].
    split; [intros k Hk; rewrite lookup_insert; by case_decide|].
    rewrite <- app_assoc. eexists. split; [reflexivity | by repeat constructor].
Qed.

Lemma bind_raise {A B} (m : M Server A) (k : A -> M Server B) w e w' :
  m w = (Raise e, w') -> bind m k w = (Raise e, w').
Proof. intros H. unfold bind. by rewrite H. Qed.

Lemma call_error {A} e (op : Server -> remote A * Server) w s' :
  op (server w) = (RemoteError, s') ->
  call e op w = (Raise RuntimeError, on_server (logged w [e]) s').
Proof. intros H. unfold call. by rewrite H. Qed.

Lemma run_plan_frame p tid w :
  let w' := snd (run_plan client p tid (from_user_id w) w) in
  from_user_id w' = from_user_id w
  /\ dialog_data w' !! "task_id" = dialog_data w !! "task_id"
  /\ (forall k, is_Some (dialog_data w !! k) -> is_Some (dialog_data w' !! k))
  /\ exists es, log w' = log w ++ es /\ plan_events p tid (from_user_id w) es.
Proof.
  destruct p as [|body|e|]; cbn [run_plan plan_events].
  - destruct (delete_task client tid (from_user_id w) (server w)) as [[[]|] s1] eqn:Hdel.
    + rewrite (bind_ok _ _ _ _ _ (call_reply _ _ _ _ _ Hdel)). simpl.
      repeat split; [done..|]. rewrite <- app_assoc. eexists. split; [reflexivity|]. by right.
    + rewrite (bind_raise _ _ _ _ _ (call_error _ _ _ _ Hdel)). simpl.
      repeat split; [done..|]. eexists. split; [reflexivity|]. by left.
  - destruct (modify_task client body (from_user_id w) (server w)) as [[[]|] s1] eqn:Hmod.
    2:{ rewrite (bind_raise _ _ _ _ _ (call_error _ _ _ _ Hmod)). simpl.
        repeat split; [done..|]. eexists. split; [reflexivity|].
        exists [], []. split; [done|]. split; [constructor | by left]. }
    rewrite (bind_ok _ _ _ _ _ (call_reply _ _ _ _ _ Hmod)).
    set (w1 := on_server _ s1).
    destruct (load_task_info_frame w1) as (Hu & Hid & Hk & fs & Hlog & Hfs).
    unfold bind, emit.
    destruct (TaskView.load_task_info client w1) as [[[]|e] w2]; simpl in *.
    + repeat split; [done..|]. rewrite Hlog. rewrite <- !app_assoc.
      eexists. split; [reflexivity|]. exists fs, [ManagerShow SEND]. split; [done|].
      split; [done | by right].
    + repeat split; [done..|]. rewrite Hlog. rewrite <- !app_assoc.
      eexists. split; [reflexivity|]. exists fs, []. rewrite app_nil_r. split; [done|].
      split; [done | by left].
  - simpl. repeat split; [done..|]. exists []. by rewrite app_nil_r.
  - simpl. repeat split; [done..|]. by eexists.
Qed.

Lemma table_delete v tid result :
  table v tid result = PlanDelete <-> eq_str v "delete" = true /\ truthy result = true.
Proof.
  unfold table. destruct (eq_str v "delete").
  - destruct (truthy result); split; try done. by intros [_ ?].
  - split; [|by intros [? _]].
    destruct (is_none result); [done|].
    repeat (match goal with |- context [if eq_str v ?t then _ else _] =>
                              destruct (eq_str v t) end; try done).
    by destruct (TaskView.parse_datetime result).
Qed.

Lemma missing_intent_task_view w d result :
  d !! "intent" = None ->
  snd (TaskView.on_process_result client (Dict d) result w) = w.
Proof.
  intros Hint. run_dispatch. rewrite Hint.
  by destruct (dialog_data w !! "task_id").
Qed.

Lemma missing_task_id w d result :
  dialog_data w !! "task_id" = None ->
  TaskView.on_process_result client (Dict d) result w = (Raise (KeyError "task_id"), w).
Proof. intros Hid. run_dispatch. by rewrite Hid. Qed.
End Frames.

Lemma filter_delete_fetches fs :
  Forall (fun e => is_fetch e = true) fs -> List.filter is_delete fs = [].
Proof.
  induction 1 as [|e fs He _ IH]; [done|]. simpl. rewrite IH.
  by destruct e.
Qed.

Lemma table_none v tid : table v tid PyNone = PlanShow.
Proof. unfold table. by destruct (eq_str v "delete"). Qed.

Lemma table_edit tag tid result body :
  In tag edit_intents -> result <> PyNone ->
  edit_body tag tid result = Some body ->
  table (PyStr tag) tid result = PlanEdit body.
Proof.
  intros Htag Hres Hbody. unfold table. rewrite (is_none_false _ Hres).
  simpl in Htag. destruct Htag as [<- | [<- | [<- | [<- | []]]]];
    cbn [eq_str String.eqb Ascii.eqb Bool.eqb]; cbv beta iota.
  - by injection Hbody as <-.
  - by injection Hbody as <-.
  - unfold edit_body in Hbody. cbn [String.eqb Ascii.eqb Bool.eqb] in Hbody.
    destruct (TaskView.parse_datetime result); [by injection Hbody as <- | done].
  - by injection Hbody as <-.
Qed.

Section DispatcherSafety.
Context {Server : Type} (client : Client Server).
Implicit Types (w : world Server) (d : gmap string pyval) (v tid result : pyval).

(** A cancelled sub-dialog (result [None]) never leads to a remote call,
    whatever the payload and the state of the session: neither dispatcher
    touches the server or the dialog data, and all they may do is call the
    dialog manager. *)
Theorem cancelled_result_makes_no_remote_call (which : dispatcher) sd w :
  let w' := snd (run_dispatcher client which sd PyNone w) in
  server w' = server w
  /\ dialog_data w' = dialog_data w
  /\ exists es, log w' = log w ++ es /\ Forall (fun e => is_remote e = false) es.
Proof.
  assert (Hsame : server w = server w /\ dialog_data w = dialog_data w
                  /\ exists es, log w = log w ++ es
                                /\ Forall (fun e => is_remote e = false) es).
  { repeat split. exists []. by rewrite app_nil_r. }
  destruct which, sd as [x | d]; cbn [run_dispatcher]; try exact Hsame.
  - destruct (dialog_data w !! "task_id") as [tid|] eqn:Hid.
    2:{ by rewrite (missing_task_id client w d PyNone Hid). }
    destruct (d !! "intent") as [v|] eqn:Hint.
    2:{ by rewrite (missing_intent_task_view client w d PyNone Hint). }
    rewrite (dispatch_table client w d v tid PyNone Hid Hint), table_none. simpl.
    repeat split. eexists. split; [reflexivity | by repeat constructor].
  - destruct (d !! "intent") as [v|] eqn:Hint.
    2:{ pose proof (missing_intent_world_unchanged client RoomlessDispatcher d PyNone w Hint)
          as E.
        cbn [run_dispatcher] in E. by rewrite E. }
    unfold Roomless.on_process_result.
    rewrite (bind_ok _ _ _ _ _ (intent_is_some _ _ _ _ Hint)).
    destruct (eq_str v "create_room"); [|exact Hsame]. simpl.
    repeat split. eexists. split; [reflexivity | by repeat constructor].
Qed.

(** The task view asks the server to delete exactly when the intent is
    [delete] and the result is true in the sense of [if result:]; it then
    asks once, for the task of the session.  Any other tag, result or
    remote answer leads to no delete call. *)
Theorem delete_only_when_confirmed w d tid result :
  dialog_data w !! "task_id" = Some tid ->
  exists es,
    log (snd (TaskView.on_process_result client (Dict d) result w)) = log w ++ es
    /\ List.filter is_delete es
       = if match d !! "intent" with
            | Some v => eq_str v "delete" && truthy result
            | None => false
            end
         then [DeleteTask tid (from_user_id w)]
         else [].
Proof.
  intros Hid. destruct (d !! "intent") as [v|] eqn:Hint.
  2:{ rewrite (missing_intent_task_view client w d result Hint).
      exists []. by rewrite app_nil_r. }
  rewrite (dispatch_table client w d v tid result Hid Hint).
  destruct (run_plan_frame client (table v tid result) tid w) as (_ & _ & _ & es & Hlog & Hes).
  exists es. split; [done|].
  destruct (table v tid result) as [|body|e|] eqn:Htab; cbn [plan_events] in Hes.
  - apply table_delete in Htab as [-> ->]. simpl. by destruct Hes as [-> | ->].
  - assert (eq_str v "delete" && truthy result = false) as ->.
    { apply not_true_is_false. intros [? ?]%andb_true_iff.
      assert (table v tid result = PlanDelete) by (by apply table_delete). congruence. }
    destruct Hes as (fs & tail & -> & Hfs & Htail). simpl.
    rewrite List.filter_app, (filter_delete_fetches fs Hfs). by destruct Htail as [-> | ->].
  - assert (eq_str v "delete" && truthy result = false) as ->.
    { apply not_true_is_false. intros [? ?]%andb_true_iff.
      assert (table v tid result = PlanDelete) by (by apply table_delete). congruence. }
    by subst es.
  - assert (eq_str v "delete" && truthy result = false) as ->.
    { apply not_true_is_false. intros [? ?]%andb_true_iff.
      assert (table v tid result = PlanDelete) by (by apply table_delete). congruence. }
    by subst es.
Qed.

(** Whatever it is given and however it ends, the dispatcher of the task
    view leaves the user and the task id of the session as they were and
    removes no entry of the dialog data. *)
Theorem dispatcher_keeps_session sd result w :
  let w' := snd (TaskView.on_process_result client sd result w) in
  from_user_id w' = from_user_id w
  /\ dialog_data w' !! "task_id" = dialog_data w !! "task_id"
  /\ forall k, is_Some (dialog_data w !! k) -> is_Some (dialog_data w' !! k).
Proof.
  destruct sd as [x | d]; [done|].
  destruct (dialog_data w !! "task_id") as [tid|] eqn:Hid.
  2:{ by rewrite (missing_task_id client w d result Hid). }
  destruct (d !! "intent") as [v|] eqn:Hint.
  2:{ by rewrite (missing_intent_task_view client w d result Hint). }
  rewrite (dispatch_table client w d v tid result Hid Hint).
  destruct (run_plan_frame client (table v tid result) tid w) as (Hu & Ht & Hk & _).
  cbv zeta. rewrite Hu, Ht, Hid. done.
Qed.

(** A remote change that fails ends the dispatcher with [RuntimeError]
    right after the failed call: no refresh, no screen, no [done]; the
    dialog data stay as they were. *)
Theorem failed_change_propagates w d tid result :
  dialog_data w !! "task_id" = Some tid ->
  (forall tag body s1,
      d !! "intent" = Some (PyStr tag) -> In tag edit_intents ->
      result <> PyNone -> edit_body tag tid result = Some body ->
      modify_task client body (from_user_id w) (server w) = (RemoteError, s1) ->
      TaskView.on_process_result client (Dict d) result w
      = (Raise RuntimeError, on_server (logged w [ModifyTask body (from_user_id w)]) s1))
  /\ (forall s1,
         d !! "intent" = Some (PyStr "delete") -> truthy result = true ->
         delete_task client tid (from_user_id w) (server w) = (RemoteError, s1) ->
         TaskView.on_process_result client (Dict d) result w
         = (Raise RuntimeError, on_server (logged w [DeleteTask tid (from_user_id w)]) s1)).
Proof.
  intros Hid. split.
  - intros tag body s1 Hint Htag Hres Hbody Hmod.
    rewrite (dispatch_table client w d _ tid result Hid Hint).
    rewrite (table_edit tag tid result body Htag Hres Hbody). cbn [run_plan].
    by rewrite (bind_raise _ _ _ _ _ (call_error _ _ _ _ Hmod)).
  - intros s1 Hint Hres Hdel.
    rewrite (dispatch_table client w d _ tid result Hid Hint).
    unfold table. cbn [eq_str String.eqb Ascii.eqb Bool.eqb]. rewrite Hres. cbn [run_plan].
    by rewrite (bind_raise _ _ _ _ _ (call_error _ _ _ _ Hdel)).
Qed.

(** For [edit_start_date] the filter of the prompt and the dispatcher agree
    on every text: where the filter answers [False] the dispatcher raises
    [ValueError] before any call, and on every other text the dispatcher's
    first call is [modify_task] with the parsed date. *)
Theorem start_date_filter_guards_dispatch w d tid text :
  dialog_data w !! "task_id" = Some tid ->
  d !! "intent" = Some (PyStr "edit_start_date") ->
  match TaskView.start_date_filter text with
  | Ok (PyBool false) =>
      TaskView.on_process_result client (Dict d) (PyStr text) w = (Raise ValueError, w)
  | _ =>
      exists dt es,
        TaskView.parse_datetime (PyStr text) = Ok dt
        /\ log (snd (TaskView.on_process_result client (Dict d) (PyStr text) w))
           = log w ++ ModifyTask (mk_body tid None None (Some (PyDatetime dt)) None)
                                 (from_user_id w) :: es
  end.
Proof.
  intros Hid Hint.
  rewrite (dispatch_table client w d _ tid (PyStr text) Hid Hint).
  unfold table. cbn [eq_str String.eqb Ascii.eqb Bool.eqb is_none]. cbv beta iota.
  destruct (start_date_filter_cases text) as [(dt & Hp & ->) | [Hp ->]]; rewrite Hp.
  - set (body := mk_body _ _ _ _ _).
    destruct (run_plan_frame client (PlanEdit body) tid w)
      as (_ & _ & _ & es & Hlog & fs & tail & -> & _).
    exists dt, (fs ++ tail). by rewrite Hlog.
  - reflexivity.
Qed.

(** Both dispatchers read nothing of a dict payload but its ["intent"]
    entry. *)
Theorem dispatcher_reads_only_intent (which : dispatcher) d d' result w :
  d !! "intent" = d' !! "intent" ->
  run_dispatcher client which (Dict d) result w
  = run_dispatcher client which (Dict d') result w.
Proof.
  intros H. destruct which; cbn [run_dispatcher].
  - unfold TaskView.on_process_result, TaskView.dispatch, intent_is, dict_get.
    by rewrite H.
  - unfold Roomless.on_process_result, intent_is, dict_get. by rewrite H.
Qed.
End DispatcherSafety.

Lemma delete_only_when_confirmed_witness :
  exists es,
    log (snd (TaskView.on_process_result Memory.client
                (Dict {[ "intent" := PyStr "delete" ]}) (PyStr "yes") (Memory.viewing 2)))
    = log (Memory.viewing 2) ++ es
    /\ List.filter is_delete es = [DeleteTask (PyInt 2) 42].
Proof.
  exact (delete_only_when_confirmed Memory.client (Memory.viewing 2)
           {[ "intent" := PyStr "delete" ]} (PyInt 2) (PyStr "yes") eq_refl).
Defined.

Lemma failed_change_propagates_witness :
  TaskView.on_process_result Memory.client (Dict {[ "intent" := PyStr "edit_name" ]})
    (PyStr "Shopping") (Memory.session 99)
  = (Raise RuntimeError,
     on_server (logged (Memory.session 99)
                  [ModifyTask (mk_body (PyInt 99) (Some (PyStr "Shopping")) None None None) 42])
       Memory.home)
  /\ TaskView.on_process_result Memory.client (Dict {[ "intent" := PyStr "delete" ]})
       (PyBool true) (Memory.session 99)
     = (Raise RuntimeError,
        on_server (logged (Memory.session 99) [DeleteTask (PyInt 99) 42]) Memory.home).
Proof.
  split.
  - apply (proj1 (failed_change_propagates Memory.client (Memory.session 99)
                    {[ "intent" := PyStr "edit_name" ]} (PyInt 99) (PyStr "Shopping")
                    eq_refl) "edit_name"); try reflexivity.
    + simpl. tauto.
    + discriminate.
  - apply (proj2 (failed_change_propagates Memory.client (Memory.session 99)
                    {[ "intent" := PyStr "delete" ]} (PyInt 99) (PyBool true)
                    eq_refl)); reflexivity.
Defined.

Lemma start_date_filter_guards_dispatch_witness :
  TaskView.on_process_result Memory.client (Dict {[ "intent" := PyStr "edit_start_date" ]})
    (PyStr "31.02.2024 10:00") (Memory.viewing 1)
  = (Raise ValueError, Memory.viewing 1)
  /\ exists dt es,
       TaskView.parse_datetime (PyStr "1.3.2024 9:05") = Ok dt
       /\ log (snd (TaskView.on_process_result Memory.client
                      (Dict {[ "intent" := PyStr "edit_start_date" ]})
                      (PyStr "1.3.2024 9:05") (Memory.viewing 1)))
          = log (Memory.viewing 1)
            ++ ModifyTask (mk_body (PyInt 1) None None (Some (PyDatetime dt)) None) 42 :: es.
Proof.
  split.
  - exact (start_date_filter_guards_dispatch Memory.client (Memory.viewing 1)
             {[ "intent" := PyStr "edit_start_date" ]} (PyInt 1) "31.02.2024 10:00"
             eq_refl eq_refl).
  - exact (start_date_filter_guards_dispatch Memory.client (Memory.viewing 1)
             {[ "intent" := PyStr "edit_start_date" ]} (PyInt 1) "1.3.2024 9:05"
             eq_refl eq_refl).
Defined.

Lemma dispatcher_reads_only_intent_witness :
  run_dispatcher Memory.client TaskViewDispatcher
    (Dict (<["input" := PyStr "anything"]> {[ "intent" := PyStr "edit_name" ]}))
    (PyStr "Shopping") (Memory.viewing 1)
  = run_dispatcher Memory.client TaskViewDispatcher
      (Dict {[ "intent" := PyStr "edit_name" ]}) (PyStr "Shopping") (Memory.viewing 1).
Proof.
  apply (dispatcher_reads_only_intent Memory.client TaskViewDispatcher). reflexivity.
Defined.

Section RoomlessSafety.
Context {Server : Type} (client : Client Server).
Implicit Types (w : world Server) (d : gmap string pyval) (v result : pyval).

Lemma roomless_created w d v result room s1 :
  d !! "intent" = Some v -> eq_str v "create_room" = true -> is_none result = false ->
  create_room client result (from_user_id w) (server w) = (Reply room, s1) ->
  Roomless.on_process_result client (Dict d) result w
  = (Ok tt,
     on_server
       (logged w [CreateRoom result (from_user_id w);
                  ManagerStart RoomSG_main
                    (Dict {[ "input" := RoomDialogStartData (PyInt room) result ]})
                    RESET_STACK])
       s1).
Proof.
  intros Hint Hv Hres Hroom. unfold Roomless.on_process_result.
  rewrite (bind_ok _ _ _ _ _ (intent_is_some _ _ _ _ Hint)), Hv, Hres. cbn [negb].
  unfold bind at 1. unfold event_from_user_id at 1.
  rewrite (bind_ok _ _ _ _ _ (call_reply _ _ _ _ _ Hroom)).
  unfold emit, on_server, logged. simpl. by rewrite <- app_assoc.
Qed.

Lemma roomless_create_failed w d v result s1 :
  d !! "intent" = Some v -> eq_str v "create_room" = true -> is_none result = false ->
  create_room client result (from_user_id w) (server w) = (RemoteError, s1) ->
  Roomless.on_process_result client (Dict d) result w
  = (Raise RuntimeError, on_server (logged w [CreateRoom result (from_user_id w)]) s1).
Proof.
  intros Hint Hv Hres Hroom. unfold Roomless.on_process_result.
  rewrite (bind_ok _ _ _ _ _ (intent_is_some _ _ _ _ Hint)), Hv, Hres. cbn [negb].
  unfold bind at 1. unfold event_from_user_id at 1.
  by rewrite (bind_raise _ _ _ _ _ (call_error _ _ _ _ Hroom)).
Qed.

Lemma roomless_cancelled w d v result :
  d !! "intent" = Some v -> eq_str v "create_room" = true -> is_none result = true ->
  Roomless.on_process_result client (Dict d) result w = (Ok tt, logged w [ManagerShow SEND]).
Proof.
  intros Hint Hv Hres. unfold Roomless.on_process_result.
  by rewrite (bind_ok _ _ _ _ _ (intent_is_some _ _ _ _ Hint)), Hv, Hres.
Qed.

Lemma roomless_other w d v result :
  d !! "intent" = Some v -> eq_str v "create_room" = false ->
  Roomless.on_process_result client (Dict d) result w = (Ok tt, w).
Proof.
  intros Hint Hv. unfold Roomless.on_process_result.
  by rewrite (bind_ok _ _ _ _ _ (intent_is_some _ _ _ _ Hint)), Hv.
Qed.

(** The welcome screen leaves for the room view only with a room that the
    server has just created: whatever the payload, the result and the
    remote answer, a dialog is started only after [create_room] replied,
    and then it is the room view for the returned id and the given name,
    on a reset stack.  The dialog data are never touched. *)
Theorem room_view_only_after_create sd result w :
  let w' := snd (Roomless.on_process_result client sd result w) in
  dialog_data w' = dialog_data w
  /\ exists es,
       log w' = log w ++ es
       /\ forall st data mode,
            In (ManagerStart st data mode) es ->
            exists room,
              create_room client result (from_user_id w) (server w) = (Reply room, server w')
              /\ st = RoomSG_main /\ mode = RESET_STACK
              /\ data = Dict {[ "input" := RoomDialogStartData (PyInt room) result ]}.
Proof.
  cbv zeta.
  assert (Hnothing : forall o, Roomless.on_process_result client sd result w = (o, w) ->
            dialog_data (snd (Roomless.on_process_result client sd result w)) = dialog_data w
            /\ exists es,
                 log (snd (Roomless.on_process_result client sd result w)) = log w ++ es
                 /\ forall st data mode,
                      In (ManagerStart st data mode) es ->
                      exists room,
                        create_room client result (from_user_id w) (server w)
                        = (Reply room, server (snd (Roomless.on_process_result client sd result w)))
                        /\ st = RoomSG_main /\ mode = RESET_STACK
                        /\ data = Dict {[ "input" := RoomDialogStartData (PyInt room) result ]}).
  { intros o ->. split; [done|]. exists []. rewrite app_nil_r. split; [done|].
    intros ? ? ? []. }
  destruct sd as [x | d]; [by apply (Hnothing (Ok tt))|].
  destruct (d !! "intent") as [v|] eqn:Hint.
  2:{ apply (Hnothing (Raise (KeyError "intent"))). unfold Roomless.on_process_result.
      unfold intent_is, bind, lift, dict_get. by rewrite Hint. }
  destruct (eq_str v "create_room") eqn:Hv.
  2:{ apply (Hnothing (Ok tt)). by apply (roomless_other w d v). }
  destruct (is_none result) eqn:Hres.
  { rewrite (roomless_cancelled w d v result Hint Hv Hres). simpl.
    split; [done|]. eexists. split; [reflexivity|].
    intros st data mode [H | []]. discriminate. }
  destruct (create_room client result (from_user_id w) (server w)) as [[room|] s1] eqn:Hroom.
  - rewrite (roomless_created w d v result room s1 Hint Hv Hres Hroom). simpl.
    split; [done|]. eexists. split; [reflexivity|].
    intros st data mode [H | [H | []]]; [discriminate|].
    injection H as <- <- <-. by exists room.
  - rewrite (roomless_create_failed w d v result s1 Hint Hv Hres Hroom). simpl.
    split; [done|]. eexists. split; [reflexivity|].
    intros st data mode [H | []]. discriminate.
Qed.
End RoomlessSafety.

Section RefreshFailures.
Context {Server : Type} (client : Client Server).
Implicit Types (w : world Server) (tid : pyval).

(** A refresh whose task fetch fails leaves the dialog data untouched.  A
    refresh whose order fetch fails has already stored the new task: it
    raises with the new task next to the executors of the refresh before. *)
Theorem refresh_failures w tid :
  dialog_data w !! "task_id" = Some tid ->
  (forall s1,
      get_task_info client tid (from_user_id w) (server w) = (RemoteError, s1) ->
      TaskView.load_task_info client w
      = (Raise RuntimeError, on_server (logged w [GetTaskInfo tid (from_user_id w)]) s1))
  /\ (forall t s1 oid s2,
         get_task_info client tid (from_user_id w) (server w) = (Reply t, s1) ->
         order_id t = Some oid ->
         get_order_info client oid (from_user_id w) s1 = (RemoteError, s2) ->
         exists w',
           TaskView.load_task_info client w = (Raise RuntimeError, w')
           /\ dialog_data w' !! "task" = Some (PyTaskInfo t)
           /\ dialog_data w' !! "executors" = dialog_data w !! "executors"
           /\ log w' = log w ++ [GetTaskInfo tid (from_user_id w);
                                 GetOrderInfo oid (from_user_id w)]).
Proof.
  intros Hid. split.
  - intros s1 Ht. unfold TaskView.load_task_info.
    unfold bind at 1. unfold event_from_user_id at 1.
    rewrite (bind_ok _ _ _ _ _ (dialog_data_get_some _ _ _ Hid)).
    by rewrite (bind_raise _ _ _ _ _ (call_error _ _ _ _ Ht)).
  - intros t s1 oid s2 Ht Ho Hod. unfold TaskView.load_task_info.
    unfold bind at 1. unfold event_from_user_id at 1.
    rewrite (bind_ok _ _ _ _ _ (dialog_data_get_some _ _ _ Hid)).
    rewrite (bind_ok _ _ _ _ _ (call_reply _ _ _ _ _ Ht)).
    rewrite Ho. unfold bind at 1. unfold dialog_data_set at 1.
    erewrite bind_raise; [|apply call_error; simpl; exact Hod].
    eexists. split; [reflexivity|]. simpl.
    split; [by rewrite lookup_insert_eq|]. split; [by rewrite lookup_insert_ne|].
    by rewrite <- app_assoc.
Qed.
End RefreshFailures.

Lemma refresh_failures_witness :
  TaskView.load_task_info Memory.client (Memory.session 99)
  = (Raise RuntimeError,
     on_server (logged (Memory.session 99) [GetTaskInfo (PyInt 99) 42]) Memory.home)
  /\ exists w',
       TaskView.load_task_info Memory.client stale_session = (Raise RuntimeError, w')
       /\ dialog_data w' !! "task"
          = Some (PyTaskInfo (mk_task "Dishes" None (mk_datetime 2024 3 1 9 0 0) 1 (Some 9)))
       /\ dialog_data w' !! "executors" = Some (PyUsers [Memory.alice])
       /\ log w' = [] ++ [GetTaskInfo (PyInt 5) 42; GetOrderInfo 9 42].
Proof.
  split.
  - apply (proj1 (refresh_failures Memory.client (Memory.session 99) (PyInt 99) eq_refl)).
    reflexivity.
  - apply (proj2 (refresh_failures Memory.client stale_session (PyInt 5) eq_refl)
             _ dangling 9 dangling); reflexivity.
Defined.

(** ** What the window shows *)

Section Getter.
Context {Server : Type} (client : Client Server).
Implicit Types (w : world Server) (tid : pyval).

Lemma getter_reads_refresh w w1 :
  TaskView.load_task_info client w = (Ok tt, w1) ->
  exists tid t s1 executors,
    dialog_data w !! "task_id" = Some tid
    /\ get_task_info client tid (from_user_id w) (server w) = (Reply t, s1)
    /\ TaskView.getter w1
       = (Ok (TaskView.mk_window_data
                (TaskView.mk_representation (task_name t) (task_description t)
                                            (task_start_date t) (task_period t))
                executors),
          w1)
    /\ match order_id t with
       | None => executors = PyNone
       | Some oid =>
           exists od s2,
             get_order_info client oid (from_user_id w) s1 = (Reply od, s2)
             /\ executors = PyUsers (users od)
       end.
Proof.
  intros Hrun.
  destruct (load_task_info_inv client w w1 Hrun) as (tid & t & s1 & Hid & Ht & Hord).
  exists tid, t, s1.
  destruct Hord as [Ho | (oid & od & s2 & Ho & Hod)].
  - rewrite (load_task_info_no_order client w tid t s1 Hid Ht Ho) in Hrun.
    injection Hrun as <-. exists PyNone. rewrite Ho.
    split; [done|]. split; [done|]. split; [|done].
    unfold TaskView.getter.
    erewrite bind_ok;
      [|apply dialog_data_get_some; simpl; by rewrite lookup_insert_ne, lookup_insert_eq].
    erewrite bind_ok; [|apply dialog_data_get_some; simpl; by rewrite lookup_insert_eq].
    reflexivity.
  - rewrite (load_task_info_order client w tid t s1 oid od s2 Hid Ht Ho Hod) in Hrun.
    injection Hrun as <-. exists (PyUsers (users od)). rewrite Ho.
    split; [done|]. split; [done|]. split; [|by exists od, s2].
    unfold TaskView.getter.
    erewrite bind_ok;
      [|apply dialog_data_get_some; simpl; by rewrite lookup_insert_ne, lookup_insert_eq].
    erewrite bind_ok; [|apply dialog_data_get_some; simpl; by rewrite lookup_insert_eq].
    reflexivity.
Qed.

(** After a refresh that returned, [getter] returns, changes nothing, and
    hands to the window the name, description, start date and period of the
    task that the refresh fetched, with [None] for the executors of a task
    without order and the users of its order otherwise. *)
Theorem getter_after_refresh w w1 :
  TaskView.load_task_info client w = (Ok tt, w1) ->
  exists tid t s1 executors,
    dialog_data w !! "task_id" = Some tid
    /\ get_task_info client tid (from_user_id w) (server w) = (Reply t, s1)
    /\ TaskView.getter w1
       = (Ok (TaskView.mk_window_data
                (TaskView.mk_representation (task_name t) (task_description t)
                                            (task_start_date t) (task_period t))
                executors),
          w1)
    /\ match order_id t with
       | None => executors = PyNone
       | Some oid =>
           exists od s2,
             get_order_info client oid (from_user_id w) s1 = (Reply od, s2)
             /\ executors = PyUsers (users od)
       end.
Proof.
  intros Hrun.
  destruct (getter_reads_refresh w w1 Hrun) as (tid & t & s1 & ex & H).
  by exists tid, t, s1, ex.
Qed.

(** [on_start] with the start data of a task view, once it returned, has
    opened a complete session: the task id of the start data is stored,
    where the dispatcher reads it, and [getter] returns the task fetched
    for that id. *)
Theorem on_start_opens_session (start_data : gmap string pyval) tid w w1 :
  start_data !! "input" = Some (TaskViewDialogStartData tid) ->
  TaskView.on_start client start_data w = (Ok tt, w1) ->
  dialog_data w1 !! "task_id" = Some tid
  /\ exists t s1 executors,
       get_task_info client tid (from_user_id w) (server w) = (Reply t, s1)
       /\ TaskView.getter w1
          = (Ok (TaskView.mk_window_data
                   (TaskView.mk_representation (task_name t) (task_description t)
                                               (task_start_date t) (task_period t))
                   executors),
             w1).
Proof.
  intros Hin Hrun.
  pose proof (on_start_stores_task_id client start_data tid w w1 Hin Hrun) as Hid.
  split; [done|].
  revert Hrun. unfold TaskView.on_start, bind at 1 2 3, lift, dict_get, dialog_data_set.
  rewrite Hin. simpl. intros Hrun.
  destruct (getter_reads_refresh _ w1 Hrun) as (tid' & t & s1 & ex & Hid' & Ht & Hg & _).
  simpl in Hid', Ht. rewrite lookup_insert_eq in Hid'. injection Hid' as <-.
  by exists t, s1, ex.
Qed.
End Getter.

Lemma getter_after_refresh_witness :
  exists tid t s1 executors,
    dialog_data (Memory.session 1) !! "task_id" = Some tid
    /\ get_task_info Memory.client tid 42 Memory.home = (Reply t, s1)
    /\ TaskView.getter (Memory.viewing 1)
       = (Ok (TaskView.mk_window_data
                (TaskView.mk_representation (task_name t) (task_description t)
                                            (task_start_date t) (task_period t))
                executors),
          Memory.viewing 1)
    /\ match order_id t with
       | None => executors = PyNone
       | Some oid =>
           exists od s2,
             get_order_info Memory.client oid 42 s1 = (Reply od, s2)
             /\ executors = PyUsers (users od)
       end.
Proof.
  exact (getter_after_refresh Memory.client (Memory.session 1) (Memory.viewing 1) eq_refl).
Defined.

Lemma on_start_opens_session_witness :
  dialog_data (Memory.viewing 1) !! "task_id" = Some (PyInt 1)
  /\ exists t s1 executors,
       get_task_info Memory.client (PyInt 1) 42 Memory.home = (Reply t, s1)
       /\ TaskView.getter (Memory.viewing 1)
          = (Ok (TaskView.mk_window_data
                   (TaskView.mk_representation (task_name t) (task_description t)
                                               (task_start_date t) (task_period t))
                   executors),
             Memory.viewing 1).
Proof.
  exact (on_start_opens_session Memory.client
           {[ "input" := TaskViewDialogStartData (PyInt 1) ]} (PyInt 1)
           (mk_world Memory.home 42 ∅ []) (Memory.viewing 1) eq_refl eq_refl).
Defined.

(** ** Dates written and read back *)

Lemma code_digit_char n : 0 <= n <= 9 -> code (digit_char n) = 48 + n.
Proof.
  intros H. unfold code, digit_char. rewrite N_ascii_embedding; lia.
Qed.

Lemma is_digit_digit_char n : 0 <= n <= 9 -> is_digit (digit_char n) = true.
Proof.
  intros H. unfold is_digit. apply in_range_spec. rewrite code_digit_char; lia.
Qed.

Lemma digit_val_digit_char n : 0 <= n <= 9 -> digit_val (digit_char n) = n.
Proof. intros H. unfold digit_val. rewrite code_digit_char; lia. Qed.

Lemma mod10_digit n : 0 <= n mod 10 <= 9.
Proof. pose proof (Z.mod_pos_bound n 10). lia. Qed.

Lemma zero_padded_digits w n : forallb is_digit (zero_padded w n) = true.
Proof.
  revert n. induction w as [|w IH]; intros n; [done|]. simpl.
  rewrite forallb_app, IH. simpl. by rewrite (is_digit_digit_char _ (mod10_digit n)).
Qed.

Lemma digits_value_snoc cs c : digits_value (cs ++ [c]) = 10 * digits_value cs + digit_val c.
Proof. unfold digits_value. by rewrite fold_left_app. Qed.

Lemma digits_value_zero_padded w n :
  digits_value (zero_padded w n) = n mod 10 ^ Z.of_nat w.
Proof.
  revert n. induction w as [|w IH]; intros n.
  - simpl. by rewrite Z.mod_1_r.
  - cbn [zero_padded]. rewrite digits_value_snoc, IH.
    rewrite (digit_val_digit_char _ (mod10_digit n)).
    rewrite Nat2Z.inj_succ, Z.pow_succ_r by lia.
    rewrite Z.rem_mul_r by lia. lia.
Qed.

(** [int] reads a zero-padded number back. *)
Lemma py_int_chars_zero_padded w n :
  (0 < w)%nat -> 0 <= n < 10 ^ Z.of_nat w ->
  py_int_chars (zero_padded w n) = Ok n.
Proof.
  intros Hw Hn. rewrite py_int_chars_digits.
  - by rewrite digits_value_zero_padded, Z.mod_small.
  - destruct w; [lia|]. cbn [zero_padded]. by destruct (zero_padded w (n / 10)).
  - apply zero_padded_digits.
Qed.

(** Every value of a bounded field, one case each. *)
Ltac each_value v :=
  destruct v as [|v|v]; [| |lia]; try lia;
  repeat (destruct v as [v|v|]; try lia).

Ltac group_matches Hk := vm_compute; rewrite Hk; reflexivity.

Section Groups.
Variables (k : list ascii -> option (found * list ascii))
          (rest : list ascii) (gs : found) (r : list ascii).
Hypothesis Hk : k rest = Some (gs, r).

Lemma match_day d :
  1 <= d <= 31 ->
  first_alt "d" k re_d (zero_padded 2 d ++ rest) = Some (("d"%char, zero_padded 2 d) :: gs, r).
Proof. intros H. each_value d; group_matches Hk. Qed.

Lemma match_month m :
  1 <= m <= 12 ->
  first_alt "m" k re_m (zero_padded 2 m ++ rest) = Some (("m"%char, zero_padded 2 m) :: gs, r).
Proof. intros H. each_value m; group_matches Hk. Qed.

Lemma match_hour H :
  0 <= H <= 23 ->
  first_alt "H" k re_H (zero_padded 2 H ++ rest) = Some (("H"%char, zero_padded 2 H) :: gs, r).
Proof. intros HH. each_value H; group_matches Hk. Qed.

Lemma match_minute Mi :
  0 <= Mi <= 59 ->
  first_alt "M" k re_M (zero_padded 2 Mi ++ rest) = Some (("M"%char, zero_padded 2 Mi) :: gs, r).
Proof. intros H. each_value Mi; group_matches Hk. Qed.

Lemma match_year y :
  first_alt "Y" k re_Y (zero_padded 4 y ++ rest) = Some (("Y"%char, zero_padded 4 y) :: gs, r).
Proof.
  cbn [zero_padded app first_alt re_Y match_classes].
  rewrite !is_digit_digit_char by apply mod10_digit.
  by rewrite Hk.
Qed.
End Groups.

Lemma compile_DATE_FORMAT : compile false (chars TaskView.DATE_FORMAT) = Some date_items.
Proof. reflexivity. Qed.

Lemma strftime_DATE_FORMAT dt :
  strftime_chars dt (chars TaskView.DATE_FORMAT)
  = zero_padded 2 (day dt) ++ "."%char :: zero_padded 2 (month dt) ++ "."%char
      :: zero_padded 4 (year dt) ++ " "%char :: zero_padded 2 (hour dt) ++ ":"%char
      :: zero_padded 2 (minute dt) ++ [].
Proof. reflexivity. Qed.

Lemma days_in_month_le y m : days_in_month y m <= 31.
Proof.
  unfold days_in_month. destruct (m =? 2); [destruct (is_leap y); lia|].
  destruct (_ || _); lia.
Qed.

Lemma make_datetime_calendar dt :
  calendar dt ->
  make_datetime (year dt) (month dt) (day dt) (hour dt) (minute dt) = Ok (whole_minute dt).
Proof.
  intros (Hy & Hm & Hd & HH & HM). unfold make_datetime.
  repeat (rewrite (proj2 (Z.leb_le _ _)) by lia). reflexivity.
Qed.

Lemma make_datetime_inv y m d H Mi dt :
  make_datetime y m d H Mi = Ok dt ->
  dt = mk_datetime y m d H Mi 0 /\ calendar dt.
Proof.
  unfold make_datetime. destruct (_ && _) eqn:E; [|discriminate].
  intros [= <-]. split; [done|].
  repeat (apply andb_true_iff in E as [E ?]).
  unfold calendar. simpl. lia.
Qed.

Lemma strptime_inv text fmt dt :
  strptime text fmt = Ok dt -> calendar dt /\ second dt = 0.
Proof.
  unfold strptime.
  destruct (compile _ _); [|discriminate].
  destruct (re_match _ _) as [[f [|? ?]]|]; try discriminate.
  repeat match goal with
         | |- context [match field ?n ?d ?g with _ => _ end] =>
             destruct (field n d g); try discriminate
         end.
  intros [-> Hc]%make_datetime_inv. done.
Qed.

(** The text that [strftime] writes in [DATE_FORMAT] matches the pattern of
    the format, group by group and with nothing left over. *)
Lemma re_match_written dt :
  calendar dt ->
  re_match date_items (strftime_chars dt (chars TaskView.DATE_FORMAT))
  = Some ([("d"%char, zero_padded 2 (day dt)); ("m"%char, zero_padded 2 (month dt));
           ("Y"%char, zero_padded 4 (year dt)); ("H"%char, zero_padded 2 (hour dt));
           ("M"%char, zero_padded 2 (minute dt))], []).
Proof.
  intros (Hy & Hm & Hd & HH & HM).
  pose proof (days_in_month_le (year dt) (month dt)) as Hle.
  rewrite strftime_DATE_FORMAT. unfold date_items. cbn [re_match].
  apply match_day; [|lia]. cbn [Ascii.eqb Bool.eqb]. cbv beta iota.
  apply match_month; [|lia]. cbn [Ascii.eqb Bool.eqb]. cbv beta iota.
  apply match_year.
  assert (Hspace : forall s, plus_space
                     (first_alt "H" (re_match [Lit ":"; Grp "M" re_M]) re_H)
                     (zero_padded 2 (hour dt) ++ s) = None).
  { intros s. cbn [zero_padded app plus_space].
    by rewrite (digit_not_space _ (is_digit_digit_char _ (mod10_digit _))). }
  cbn [plus_space]. change (is_space " ") with true. cbv beta iota.
  rewrite Hspace.
  apply match_hour; [|lia]. cbn [re_match Ascii.eqb Bool.eqb]. cbv beta iota.
  apply match_minute; [|lia]. reflexivity.
Qed.

Lemma written_date_parses dt :
  calendar dt -> 1000 <= year dt ->
  strptime (strftime dt TaskView.DATE_FORMAT) TaskView.DATE_FORMAT = Ok (whole_minute dt).
Proof.
  intros Hc Hy. pose proof Hc as (Hyr & Hm & Hd & HH & HM).
  pose proof (days_in_month_le (year dt) (month dt)) as Hle.
  unfold strptime, strftime. rewrite compile_DATE_FORMAT.
  unfold chars at 2. rewrite list_ascii_of_string_of_list_ascii.
  rewrite re_match_written by done.
  cbn [field group Ascii.eqb Bool.eqb]. cbv beta iota.
  rewrite !py_int_chars_zero_padded by (simpl; lia).
  by apply make_datetime_calendar.
Qed.

Section RoundTrip.
Implicit Types (self : TaskView.TaskRepresentation) (dt : datetime).

(** The start date that the window shows can be typed back: for a task
    whose start date is of the calendar, from year 1000 on, parsing the
    shown text gives a date and time with the year, month, day, hour and
    minute of the start date, and zero seconds.  (What the start date has
    below the minute is not shown and does not come back.) *)
Theorem shown_start_date_parses_back self :
  calendar (TaskView.start_date self) ->
  1000 <= year (TaskView.start_date self) ->
  exists dt,
    TaskView.parse_datetime (PyStr (TaskView.start_date_repr self)) = Ok dt
    /\ year dt = year (TaskView.start_date self)
    /\ month dt = month (TaskView.start_date self)
    /\ day dt = day (TaskView.start_date self)
    /\ hour dt = hour (TaskView.start_date self)
    /\ minute dt = minute (TaskView.start_date self)
    /\ second dt = 0.
Proof.
  intros Hc Hy. exists (whole_minute (TaskView.start_date self)).
  split; [by apply written_date_parses | done].
Qed.

(** Every date that [parse_datetime] returns is of the calendar, with zero
    seconds; shown in the window and typed back, it parses to itself (from
    year 1000 on). *)
Theorem parsed_date_is_stable text dt self :
  TaskView.parse_datetime (PyStr text) = Ok dt ->
  TaskView.start_date self = dt ->
  calendar dt /\ second dt = 0
  /\ (1000 <= year dt ->
      TaskView.parse_datetime (PyStr (TaskView.start_date_repr self)) = Ok dt).
Proof.
  intros Hp Hself. simpl in Hp.
  destruct (strptime_inv _ _ _ Hp) as [Hc Hs].
  split; [done|]. split; [done|]. intros Hy.
  unfold TaskView.parse_datetime, TaskView.start_date_repr. rewrite Hself.
  rewrite written_date_parses by done.
  f_equal. destruct dt. simpl in Hs. by subst.
Qed.
End RoundTrip.

Lemma shown_start_date_parses_back_witness :
  exists dt,
    TaskView.parse_datetime
      (PyStr (TaskView.start_date_repr
                (TaskView.mk_representation "Laundry" (Some "whites")
                                            (mk_datetime 2024 2 29 8 30 45) 14)))
    = Ok dt
    /\ year dt = 2024 /\ month dt = 2 /\ day dt = 29 /\ hour dt = 8 /\ minute dt = 30
    /\ second dt = 0.
Proof.
  apply (shown_start_date_parses_back
           (TaskView.mk_representation "Laundry" (Some "whites")
                                       (mk_datetime 2024 2 29 8 30 45) 14));
    [|simpl; lia].
  repeat split; apply Z.leb_le; reflexivity.
Defined.

Lemma parsed_date_is_stable_witness :
  calendar (mk_datetime 2024 3 1 9 5 0) /\ second (mk_datetime 2024 3 1 9 5 0) = 0
  /\ TaskView.parse_datetime
       (PyStr (TaskView.start_date_repr
                 (TaskView.mk_representation "Dishes" None (mk_datetime 2024 3 1 9 5 0) 1)))
     = Ok (mk_datetime 2024 3 1 9 5 0).
Proof.
  destruct (parsed_date_is_stable " 1.3.2024   9:5" (mk_datetime 2024 3 1 9 5 0)
              (TaskView.mk_representation "Dishes" None (mk_datetime 2024 3 1 9 5 0) 1)
              eq_refl eq_refl) as (Hc & Hs & Hback).
  split; [exact Hc|]. split; [exact Hs|]. apply Hback. simpl. lia.
Defined.
